(** * Schedule time utilities of the autocoder dashboard

    A shallow embedding of [ui/src/lib/timeUtils.ts] (time-zone conversion,
    duration and next-run formatting, the 7-bit day-of-week mask) and of the
    recurring schedule resolution engine that the UI consumes through
    [useNextScheduledRun].

    Conventions.  A JavaScript number that holds an integer is a [Z]; sums,
    products and remainders of such numbers are exact on doubles below
    2^53 in magnitude, and the one division whose rounding can show,
    that of [formatDuration], is rounded as doubles are
    ([JS.floorQuotient]).  The 32-bit coercion performed by the bitwise
    operators is written out ([ToInt32]).  An instant is its time value, the number of milliseconds
    since 1970-01-01T00:00:00Z.  Strings are [string]. *)

From Stdlib Require Import ZArith List String Ascii Bool Lia DecimalString.
Import ListNotations.

Open Scope string_scope.
Open Scope Z_scope.

(** ** The fragment of JavaScript the utilities rely on *)

Module JS.

(** [ToInt32]: the coercion applied to both operands of [&] and [^]. *)
Definition ToInt32 (x : Z) : Z := (x + 2 ^ 31) mod 2 ^ 32 - 2 ^ 31.

(** [a & b] *)
Definition band (a b : Z) : Z := Z.land (ToInt32 a) (ToInt32 b).

(** [a ^ b] *)
Definition bxor (a b : Z) : Z := Z.lxor (ToInt32 a) (ToInt32 b).

(** [String(n)] for an integral number [n] below 1e21 in magnitude, where
    every digit is printed and no exponent; it is used on such numbers
    only. *)
Definition numberToString (n : Z) : string :=
  NilZero.string_of_int (Z.to_int n).

(** The floor of the exact quotient.  It stands for [Math.floor(a / b)]
    where the result is only compared with a small constant, which the
    rounding of the division cannot change ([formatNextRun]). *)
Definition floorDiv (a b : Z) : Z := a / b.

(** Rounding of the fraction [num / den] ([num] not negative, [den]
    positive) to the nearest integer, ties to the even one. *)
Definition roundHalfEven (num den : Z) : Z :=
  let q := num / den in
  let r := num mod den in
  if 2 * r <? den then q
  else if den <? 2 * r then q + 1
  else if Z.even q then q else q + 1.

(** The binade of the fraction [n / d], both positive: the [k] with
    [2^k <= n / d < 2^(k+1)]. *)
Definition binade (n d : Z) : Z :=
  let k := Z.log2 n - Z.log2 d in
  if (if 0 <=? k then d * 2 ^ k <=? n else d <=? n * 2 ^ (- k))
  then k else k - 1.

(** [Math.floor(a / b)] as the code computes it, on doubles: [a] and [b]
    are integers that doubles hold exactly, [b] positive.  The quotient is
    rounded to the nearest double, a 53-bit significand [m] scaled by
    [2^e] (ties to even; these magnitudes neither overflow nor reach the
    subnormal range), and the floor is taken of the rounded value. *)
Definition floorQuotient (a b : Z) : Z :=
  if a =? 0 then 0
  else
    let n := Z.abs a in
    let e := binade n b - 52 in
    let m := if 0 <=? e then roundHalfEven n (b * 2 ^ e)
             else roundHalfEven (n * 2 ^ (- e)) b in
    if 0 <=? e then Z.sgn a * m * 2 ^ e
    else (Z.sgn a * m) / 2 ^ (- e).

(** [a % b]: the remainder takes the sign of the dividend. *)
Definition remainder (a b : Z) : Z := Z.rem a b.

(** [Array.prototype.join] *)
Fixpoint join (sep : string) (xs : list string) : string :=
  match xs with
  | [] => ""
  | [x] => x
  | x :: rest => x ++ sep ++ join sep rest
  end.

Fixpoint repeatChar (c : ascii) (n : nat) : string :=
  match n with
  | O => ""
  | S k => String c (repeatChar c k)
  end.

(** [s.padStart(width, c)] with a one-character filler. *)
Definition padStart (width : nat) (c : ascii) (s : string) : string :=
  repeatChar c (width - String.length s) ++ s.

End JS.

(** ** Day-of-week bitfield *)

Record Day := mkDay { label : string; bit : Z }.

Module DAY_BITS.
Definition Mon : Z := 1.
Definition Tue : Z := 2.
Definition Wed : Z := 4.
Definition Thu : Z := 8.
Definition Fri : Z := 16.
Definition Sat : Z := 32.
Definition Sun : Z := 64.
End DAY_BITS.

Definition DAYS : list Day :=
  [ mkDay "Mon" 1; mkDay "Tue" 2; mkDay "Wed" 4; mkDay "Thu" 8;
    mkDay "Fri" 16; mkDay "Sat" 32; mkDay "Sun" 64 ].

Definition isDayActive (bitfield dayBit : Z) : bool :=
  negb (JS.band bitfield dayBit =? 0).

Definition toggleDay (bitfield dayBit : Z) : Z :=
  JS.bxor bitfield dayBit.

Definition formatDaysDescription (bitfield : Z) : string :=
  if bitfield =? 127 then "Every day"
  else if bitfield =? 31 then "Weekdays"
  else if bitfield =? 96 then "Weekends"
  else
    let activeDays := filter (fun d => isDayActive bitfield (bit d)) DAYS in
    JS.join ", " (map label activeDays).

(** ** Durations *)

Definition formatDuration (minutes : Z) : string :=
  let hours := JS.floorQuotient minutes 60 in
  let mins := JS.remainder minutes 60 in
  if hours =? 0 then JS.numberToString mins ++ "m"
  else if mins =? 0 then JS.numberToString hours ++ "h"
  else JS.numberToString hours ++ "h " ++ JS.numberToString mins ++ "m".

(** ** Dates and the viewer's time zone

    A [Date] object is its time value.  The viewer's zone is taken with a
    fixed offset from UTC, a whole number of minutes as in the designators
    [+hh:mm] (positive east of Greenwich), so that local time is UTC plus
    [LocalTZA]. *)

Module Date.

Definition msPerMinute : Z := 60000.
Definition msPerHour : Z := 3600000.
Definition msPerDay : Z := 86400000.

Definition Day (t : Z) : Z := t / msPerDay.
Definition HourFromTime (t : Z) : Z := (t / msPerHour) mod 24.
Definition MinFromTime (t : Z) : Z := (t / msPerMinute) mod 60.

Definition MakeTime (hour min sec ms : Z) : Z :=
  hour * msPerHour + min * msPerMinute + sec * 1000 + ms.
Definition MakeDate (day time : Z) : Z := day * msPerDay + time.

Record TimeZone := mkZone { offsetMinutes : Z }.

Definition LocalTZA (tz : TimeZone) : Z := offsetMinutes tz * msPerMinute.
Definition LocalTime (tz : TimeZone) (t : Z) : Z := t + LocalTZA tz.
Definition UTC (tz : TimeZone) (t : Z) : Z := t - LocalTZA tz.

(** [d.setUTCHours(hour, min, sec, ms)] *)
Definition setUTCHours (d hour min sec ms : Z) : Z :=
  MakeDate (Day d) (MakeTime hour min sec ms).

(** [d.setHours(hour, min, sec, ms)] *)
Definition setHours (tz : TimeZone) (d hour min sec ms : Z) : Z :=
  UTC tz (MakeDate (Day (LocalTime tz d)) (MakeTime hour min sec ms)).

Definition getHours (tz : TimeZone) (d : Z) : Z := HourFromTime (LocalTime tz d).
Definition getMinutes (tz : TimeZone) (d : Z) : Z := MinFromTime (LocalTime tz d).
Definition getUTCHours (d : Z) : Z := HourFromTime d.
Definition getUTCMinutes (d : Z) : Z := MinFromTime d.

End Date.

(** ** Parsing "HH:MM" *)

Definition digitOf (c : ascii) : option Z :=
  let n := Z.of_nat (nat_of_ascii c) in
  if (48 <=? n) && (n <=? 57) then Some (n - 48) else None.

Fixpoint digitsFrom (acc : Z) (s : string) : option Z :=
  match s with
  | EmptyString => Some acc
  | String c rest =>
      match digitOf c with
      | Some d => digitsFrom (10 * acc + d) rest
      | None => None
      end
  end.

(** [Number(s)] on a string of decimal digits (the empty string is 0).
    Other spellings that [Number] accepts (signs, blanks, fractions,
    exponents, radix prefixes) are outside this fragment: [None]. *)
Definition Number (s : string) : option Z := digitsFrom 0 s.

(** [s.split(sep)] for a one-character separator; [cur] is the piece being
    read, in reverse. *)
Fixpoint splitFrom (sep : ascii) (cur : string) (s : string) : list string :=
  match s with
  | EmptyString => [cur]
  | String c rest =>
      if Ascii.eqb c sep then cur :: splitFrom sep "" rest
      else splitFrom sep (cur ++ String c "") rest
  end.

Definition split (sep : ascii) (s : string) : list string := splitFrom sep "" s.

(** [const [hours, minutes] = t.split(':').map(Number)], defined when both
    pieces exist and are digit strings. *)
Definition parseHHMM (t : string) : option (Z * Z) :=
  match map Number (split ":" t) with
  | Some hours :: Some minutes :: _ => Some (hours, minutes)
  | _ => None
  end.

Definition pad2 (n : Z) : string := JS.padStart 2 "0" (JS.numberToString n).

Section TimeZoneConversion.

Variable tz : Date.TimeZone.
(** the reading of the clock by [new Date()] *)
Variable now : Z.

Definition utcToLocal (utcTime : string) : option string :=
  match parseHHMM utcTime with
  | Some (hours, minutes) =>
      let utcDate := Date.setUTCHours now hours minutes 0 0 in
      let localHours := Date.getHours tz utcDate in
      let localMinutes := Date.getMinutes tz utcDate in
      Some (pad2 localHours ++ ":" ++ pad2 localMinutes)
  | None => None
  end.

Definition localToUTC (localTime : string) : option string :=
  match parseHHMM localTime with
  | Some (hours, minutes) =>
      let localDate := Date.setHours tz now hours minutes 0 0 in
      let utcHours := Date.getUTCHours localDate in
      let utcMinutes := Date.getUTCMinutes localDate in
      Some (pad2 utcHours ++ ":" ++ pad2 utcMinutes)
  | None => None
  end.

End TimeZoneConversion.

(** ** Presentation of instants

    The two locale renderers are the browser's: [toLocaleTimeString] with
    [{hour: 'numeric', minute: '2-digit'}] and [toLocaleString] with
    [{weekday: 'short', hour: 'numeric', minute: '2-digit'}].  A date is
    [None] when the ISO string does not parse (its time value is NaN). *)

Section Presentation.

Variable toLocaleTimeString : Z -> string.
Variable toLocaleString : Z -> string.

Definition formatNextRun (now : Z) (date : option Z) : string :=
  match date with
  | Some t =>
      let diffMs := t - now in
      let diffHours := JS.floorDiv diffMs (1000 * 60 * 60) in
      if diffHours <? 24 then toLocaleTimeString t
      else toLocaleString t
  | None => "Invalid Date"
  end.

Definition formatEndTime (date : option Z) : string :=
  match date with
  | Some t => toLocaleTimeString t
  | None => "Invalid Date"
  end.

End Presentation.

(** ** The schedule resolution engine *)

Module Engine.

(** Modelled from the spec: the data model of section 3 (Schedule,
    Occurrence, ResolvedState); the engine's own types are not part of the
    sources at hand.  The start time of day is kept as hour and minute. *)
Record Schedule := mkSchedule {
  id : nat;
  project_id : string;
  days_of_week : Z;
  start_hour : Z;
  start_minute : Z;
  duration_minutes : Z;
  enabled : bool
}.

Record Occurrence := mkOccurrence {
  start : Z;
  end_ : Z;
  source_schedule_id : nat
}.

Record ResolvedState := mkResolved {
  is_currently_running : bool;
  current_end : option Z;
  next_start : option Z
}.

(** Modelled from the spec: the weekday bit of a calendar day (section
    4.2, step 1), here for the day [d] counted from 1970-01-01, a Thursday:
    Mon = 1, ..., Sun = 64. *)
Definition weekdayIndex (d : Z) : Z := (d + 3) mod 7.
Definition weekdayBit (d : Z) : Z := 2 ^ weekdayIndex d.

(** Modelled from the spec: the occurrence of a schedule on one calendar
    day (section 4.2, steps 1 to 4); the generator is not part of the
    sources at hand. *)
Definition occurrenceOn (s : Schedule) (d : Z) : list Occurrence :=
  if isDayActive (days_of_week s) (weekdayBit d) then
    let st := Date.MakeDate d (Date.MakeTime (start_hour s) (start_minute s) 0 0) in
    [ mkOccurrence st (st + duration_minutes s * Date.msPerMinute) (id s) ]
  else [].

(** The calendar days of the inclusive range from one day before the
    reference date to seven days after it. *)
Definition dayOffsets : list Z := [-1; 0; 1; 2; 3; 4; 5; 6; 7].

(** Modelled from the spec: [generate(schedule, referenceInstant)] of
    section 4.2, which is not part of the sources at hand. *)
Definition generate (s : Schedule) (referenceInstant : Z) : list Occurrence :=
  flat_map (fun k => occurrenceOn s (Date.Day referenceInstant + k)) dayOffsets.

(** Modelled from the spec: the two selections of section 4.3,
    [start <= now < end] and [start > now], and the greatest and least
    element that steps 2 and 3 take. *)
Definition covers (now : Z) (o : Occurrence) : bool :=
  (start o <=? now) && (now <? end_ o).

Definition startsAfter (now : Z) (o : Occurrence) : bool := now <? start o.

Definition maximum (xs : list Z) : option Z :=
  match xs with
  | [] => None
  | x :: rest => Some (fold_left Z.max rest x)
  end.

Definition minimum (xs : list Z) : option Z :=
  match xs with
  | [] => None
  | x :: rest => Some (fold_left Z.min rest x)
  end.

(** Modelled from the spec: step 1 of section 4.3, the occurrences of every
    enabled schedule around [now]. *)
Definition expand (schedules : list Schedule) (now : Z) : list Occurrence :=
  flat_map (fun s => generate s now) (filter enabled schedules).

(** Modelled from the spec: [resolve(schedules, now)] of section 4.3, which
    is not part of the sources at hand (the UI only reads its result through
    [useNextScheduledRun]). *)
Definition resolve (schedules : list Schedule) (now : Z) : ResolvedState :=
  let occurrences := expand schedules now in
  match filter (covers now) occurrences with
  | [] =>
      mkResolved false None
        (minimum (map start (filter (startsAfter now) occurrences)))
  | running => mkResolved true (maximum (map end_ running)) None
  end.

End Engine.

(** ** Reference renderings

    What the description of a mask and of a duration should be, written
    from the bits and from the quotient and remainder alone; the functions
    above are compared with them below. *)

Definition dayNames : list string :=
  ["Mon"; "Tue"; "Wed"; "Thu"; "Fri"; "Sat"; "Sun"].

(** The names of the days whose bit is set, Monday first. *)
Definition setDayLabels (mask : Z) : list string :=
  flat_map
    (fun i => if Z.testbit mask (Z.of_nat i) then [nth i dayNames ""] else [])
    (seq 0 7).

(** A list of names written one after the other, each but the first
    preceded by a comma and a blank; nothing for no name. *)
Definition commaJoined (labels : list string) : string :=
  match labels with
  | [] => ""
  | first :: others => fold_left (fun text l => text ++ ", " ++ l) others first
  end.

(** A well-formed time of day: two digits, a colon, two digits, the hour
    below 24 and the minute below 60. *)
Definition isHHMM (t : string) : bool :=
  match t with
  | String a (String b (String c (String d (String e EmptyString)))) =>
      Ascii.eqb c ":" &&
      match digitOf a, digitOf b, digitOf d, digitOf e with
      | Some x, Some y, Some z, Some w =>
          (10 * x + y <? 24) && (10 * z + w <? 60)
      | _, _, _, _ => false
      end
  | _ => false
  end.

Definition digitChar (x : Z) : ascii := ascii_of_nat (Z.to_nat (48 + x)).

(** A sample locale for the renderers: 24-hour clock, English day names,
    viewer in UTC. *)
Definition utcTime24 (t : Z) : string :=
  pad2 (Date.HourFromTime t) ++ ":" ++ pad2 (Date.MinFromTime t).

Definition utcWeekdayTime24 (t : Z) : string :=
  nth (Z.to_nat ((Date.Day t + 3) mod 7)) dayNames "" ++ " " ++ utcTime24 t.

(** The time values a [Date] can hold: at most 8.64e15 milliseconds from
    the epoch on either side; beyond them the date is invalid. *)
Definition timeValueInRange (t : Z) : Prop :=
  - 8640000000000000 <= t <= 8640000000000000.

(** Whether the strings of a list are pairwise different. *)
Fixpoint distinctb (l : list string) : bool :=
  match l with
  | [] => true
  | x :: rest => negb (existsb (String.eqb x) rest) && distinctb rest
  end.

(** The masks of the data model, 0 to 127. *)
Definition allMasks : list Z := map Z.of_nat (seq 0 128).

(** ** What the components display

    A component is read as the function from its props and state to what
    it shows; styling is left out.  A status is the string the server
    sends.  A value that may be [null] or [undefined] is an [option]; a
    string counts as absent in a condition when it is empty too. *)

(** [s.includes(needle)] *)
Fixpoint includes (needle s : string) : bool :=
  if String.prefix needle s then true
  else match s with
       | EmptyString => false
       | String _ rest => includes needle rest
       end.

(** The truth value of a [string | null] in a condition. *)
Definition truthy (s : option string) : bool :=
  match s with
  | Some (String _ _) => true
  | _ => false
  end.

(** [a ?? b] *)
Definition nullish {A : Type} (a : option A) (b : A) : A :=
  match a with
  | Some x => x
  | None => b
  end.

Module DevServerControl.

(** An error object; [message] may be missing. *)
Record JsError := mkError { message : option string }.

Record Mutation := mkMutation { isPending : bool; error : option JsError }.

Inductive Icon := Loader2 | AlertTriangle | Globe | Square.

Inductive MainButton :=
| StartButton (disabled : bool) (variant title : string) (icon : Icon)
| StopButton (disabled : bool) (icon : Icon).

(** [err.message?.includes('No dev command available')] as a condition *)
Definition mentionsNoDevCommand (err : JsError) : bool :=
  match message err with
  | Some msg => includes "No dev command available" msg
  | None => false
  end.

Definition isLoading (start stop : Mutation) : bool :=
  isPending start || isPending stop.

Definition isStopped (status : string) : bool :=
  String.eqb status "stopped" || String.eqb status "crashed".
Definition isRunning (status : string) : bool := String.eqb status "running".
Definition isCrashed (status : string) : bool := String.eqb status "crashed".

Definition showInlineError (startError : option JsError) : bool :=
  match startError with
  | Some err => negb (mentionsNoDevCommand err)
  | None => false
  end.

Definition mainButton (status : string) (loading : bool) : MainButton :=
  if isStopped status then
    StartButton loading
      (if isCrashed status then "destructive" else "outline")
      (if isCrashed status then "Dev Server Crashed - Click to Restart"
       else "Start Dev Server")
      (if loading then Loader2
       else if isCrashed status then AlertTriangle else Globe)
  else StopButton loading (if loading then Loader2 else Square).

(** The link to the running server. *)
Definition urlLink (status : string) (url : option string) : option string :=
  if isRunning status && truthy url then url else None.

(** [String(err?.message || 'Operation failed')] *)
Definition errorText (err : option JsError) : string :=
  match err with
  | Some e => if truthy (message e) then nullish (message e) ""
              else "Operation failed"
  | None => "Operation failed"
  end.

(** The error shown beside the buttons, if any. *)
Definition errorLine (startError stopError : option JsError) : option string :=
  if showInlineError startError
     || match stopError with Some _ => true | None => false end
  then Some (errorText (if showInlineError startError then startError
                        else stopError))
  else None.

(** The dialog flags [showConfigDialog] and [autoStartOnSave]. *)
Record DialogFlags := mkFlags {
  showConfigDialog : bool;
  autoStartOnSave : bool
}.

(** The [onError] callback that [handleStart] passes to the mutation. *)
Definition onStartError (err : JsError) (flags : DialogFlags) : DialogFlags :=
  if mentionsNoDevCommand err then mkFlags true true else flags.

Definition handleOpenConfig (flags : DialogFlags) : DialogFlags :=
  mkFlags true false.

End DevServerControl.

Module AgentControl.

(** The answer of [useNextScheduledRun], as far as the component reads
    it. *)
Record NextRun := mkNextRun {
  is_currently_running : bool;
  next_end : option string;
  next_start : option string
}.

Inductive MainButton := LoadingButton | StartButton | StopButton.

Definition isRunning (status : string) : bool :=
  String.eqb status "running" || String.eqb status "paused".
Definition isLoadingStatus (status : string) : bool :=
  String.eqb status "loading".
Definition isStopped (status : string) : bool :=
  String.eqb status "stopped" || String.eqb status "crashed".
Definition isParallel (concurrency : Z) : bool := concurrency >? 1.

Definition mainButton (status : string) : MainButton :=
  if isLoadingStatus status then LoadingButton
  else if isStopped status then StartButton
  else StopButton.

(** The concurrency slider and the "Nx" indicator. *)
Definition sliderShown (status : string) : bool := isStopped status.
Definition indicatorShown (status : string) (concurrency : Z) : bool :=
  isRunning status && isParallel concurrency.

Section ScheduleStatus.

(** [new Date(isoString)], and the browser's two renderers. *)
Variable parseDate : string -> option Z.
Variable toLocaleTimeString : Z -> string.
Variable toLocaleString : Z -> string.
(** the moment of rendering *)
Variable now : Z.

(** The line "Running until ...". *)
Definition runningLine (nextRun : option NextRun) : option string :=
  match nextRun with
  | Some r =>
      if is_currently_running r && truthy (next_end r) then
        Some ("Running until "
              ++ formatEndTime toLocaleTimeString
                   (parseDate (nullish (next_end r) "")))
      else None
  | None => None
  end.

(** The line "Next: ...". *)
Definition nextLine (nextRun : option NextRun) : option string :=
  match nextRun with
  | Some r =>
      if negb (is_currently_running r) && truthy (next_start r) then
        Some ("Next: "
              ++ formatNextRun toLocaleTimeString toLocaleString now
                   (parseDate (nullish (next_start r) "")))
      else None
  | None => None
  end.

End ScheduleStatus.

End AgentControl.

Module DevServerConfigDialog.

Record Config := mkConfig {
  detected_type : option string;
  detected_command : option string;
  custom_command : option string;
  effective_command : option string
}.

Record State := mkState {
  command : string;
  error : option string;
  isSaving : bool
}.

(** What a rejected call throws: an [Error] with its message, or some
    other value. *)
Inductive Thrown := ThrownError (message : string) | ThrownOther.

(** The calls a handler makes, in order. *)
Inductive Effect :=
| UpdateConfig (customCommand : option string)
| StartDevServer
| InvalidateStatus
| OnClose.

(** A handler runs on the component state and the calls made so far, and
    ends normally or by throwing. *)
Definition World : Type := State * list Effect.
Definition Task (A : Type) : Type := World -> (Thrown + A) * World.

Definition ret {A : Type} (a : A) : Task A := fun w => (inr a, w).

Definition bind {A B : Type} (m : Task A) (k : A -> Task B) : Task B :=
  fun w =>
    match m w with
    | (inl thrown, w') => (inl thrown, w')
    | (inr a, w') => k a w'
    end.

Notation "m ;; k" := (bind m (fun _ => k))
  (at level 61, right associativity).

Definition setCommand (v : string) : Task unit :=
  fun w => (inr tt, (mkState v (error (fst w)) (isSaving (fst w)), snd w)).
Definition setError (v : option string) : Task unit :=
  fun w => (inr tt, (mkState (command (fst w)) v (isSaving (fst w)), snd w)).
Definition setIsSaving (v : bool) : Task unit :=
  fun w => (inr tt, (mkState (command (fst w)) (error (fst w)) v, snd w)).

(** An awaited call: it is recorded, and throws when it is rejected. *)
Definition perform (e : Effect) (rejection : option Thrown) : Task unit :=
  fun w =>
    (match rejection with Some thrown => inl thrown | None => inr tt end,
     (fst w, (snd w ++ [e])%list)).

(** [try { body } catch (err) { handler err } finally { final }] *)
Definition tryCatchFinally
    (body : Task unit) (handler : Thrown -> Task unit) (final : Task unit)
    : Task unit :=
  fun w =>
    let '(r, w') :=
      match body w with
      | (inl thrown, w1) => handler thrown w1
      | (inr u, w1) => (inr u, w1)
      end in
    match final w' with
    | (inl thrown, w2) => (inl thrown, w2)
    | (inr _, w2) => (r, w2)
    end.

(** [err instanceof Error ? err.message : fallback] *)
Definition messageOr (fallback : string) (err : Thrown) : string :=
  match err with
  | ThrownError message => message
  | ThrownOther => fallback
  end.

(** The effect that fills the input when the dialog opens or the
    configuration arrives. *)
Definition syncCommand (isOpen : bool) (config : option Config)
    : Task unit :=
  match config with
  | Some c =>
      if isOpen then
        setCommand (nullish (custom_command c)
                      (nullish (effective_command c) "")) ;;
        setError None
      else ret tt
  | None => ret tt
  end.

Definition hasCustomCommand (config : option Config) : bool :=
  match config with
  | Some c => truthy (custom_command c)
  | None => false
  end.

Section Handlers.

(** [String.prototype.trim] *)
Variable trim : string -> string.
(** How the two calls to the server end: [None] when they succeed. *)
Variable updateRejection : option string -> option Thrown.
Variable startRejection : option Thrown.

Variable config : option Config.
Variable autoStartOnSave : bool.

Definition handleSaveAndStart : Task unit :=
  fun w =>
    let trimmed := trim (command (fst w)) in
    if String.eqb trimmed "" then
      setError (Some "Please enter a dev server command.") w
    else
      (setIsSaving true ;;
       setError None ;;
       tryCatchFinally
         (perform (UpdateConfig (Some trimmed))
            (updateRejection (Some trimmed)) ;;
          (if autoStartOnSave then
             perform StartDevServer startRejection ;;
             perform InvalidateStatus None
           else ret tt) ;;
          perform OnClose None)
         (fun err =>
            setError (Some (messageOr "Failed to save configuration" err)))
         (setIsSaving false)) w.

Definition handleClear : Task unit :=
  setIsSaving true ;;
  setError None ;;
  tryCatchFinally
    (perform (UpdateConfig None) (updateRejection None) ;;
     setCommand
       (nullish (match config with
                 | Some c => detected_command c
                 | None => None
                 end) ""))
    (fun err =>
       setError (Some (messageOr "Failed to clear configuration" err)))
    (setIsSaving false).

End Handlers.

End DevServerConfigDialog.

(** [trim] on a string of ASCII characters: blanks, tabs and line breaks
    are dropped at both ends. *)
Definition isBlank (c : ascii) : bool :=
  let n := nat_of_ascii c in
  Nat.eqb n 32 || (Nat.leb 9 n && Nat.leb n 13).

Fixpoint dropBlanks (s : string) : string :=
  match s with
  | EmptyString => EmptyString
  | String c rest => if isBlank c then dropBlanks rest else s
  end.

Fixpoint reverse (acc s : string) : string :=
  match s with
  | EmptyString => acc
  | String c rest => reverse (String c acc) rest
  end.

Definition asciiTrim (s : string) : string :=
  reverse "" (dropBlanks (reverse "" (dropBlanks s))).

(** Whether the days active in a mask are exactly those a test picks. *)
Definition activeDaysAre (mask : Z) (pick : Z -> bool) : bool :=
  forallb (fun d => Bool.eqb (isDayActive mask (bit d)) (pick (bit d))) DAYS.

(** * Properties *)

(** ** 32-bit operators on day masks *)

Lemma ToInt32_small (x : Z) : - 2 ^ 31 <= x < 2 ^ 31 -> JS.ToInt32 x = x.
Proof.
  intros Hx. unfold JS.ToInt32.
  rewrite Z.mod_small; lia.
Qed.

Lemma land_pow2 (m i : Z) :
  0 <= i -> Z.land m (2 ^ i) = if Z.testbit m i then 2 ^ i else 0.
Proof.
  intros Hi. apply Z.bits_inj'. intros n Hn.
  rewrite Z.land_spec, Z.pow2_bits_eqb by assumption.
  destruct (Z.eqb_spec i n) as [->|Hne].
  - destruct (Z.testbit m n); simpl.
    + now rewrite Z.pow2_bits_true.
    + now rewrite Z.bits_0.
  - rewrite andb_false_r.
    destruct (Z.testbit m i).
    + now rewrite Z.pow2_bits_false.
    + now rewrite Z.bits_0.
Qed.

Lemma pow2_small (i : Z) : 0 <= i < 7 -> 0 < 2 ^ i <= 64.
Proof.
  intros Hi. split.
  - apply Z.pow_pos_nonneg; lia.
  - change 64 with (2 ^ 6). apply Z.pow_le_mono_r; lia.
Qed.

Lemma band_mask_bit (m i : Z) :
  0 <= m <= 127 -> 0 <= i < 7 ->
  JS.band m (2 ^ i) = if Z.testbit m i then 2 ^ i else 0.
Proof.
  intros Hm Hi. unfold JS.band.
  pose proof (pow2_small i Hi).
  rewrite !ToInt32_small by lia.
  apply land_pow2; lia.
Qed.

Lemma isDayActive_testbit (m i : Z) :
  0 <= m <= 127 -> 0 <= i < 7 -> isDayActive m (2 ^ i) = Z.testbit m i.
Proof.
  intros Hm Hi. unfold isDayActive.
  rewrite band_mask_bit by assumption.
  pose proof (pow2_small i Hi).
  destruct (Z.testbit m i); simpl.
  - destruct (Z.eqb_spec (2 ^ i) 0); [lia | reflexivity].
  - reflexivity.
Qed.

Lemma toggleDay_lxor (m i : Z) :
  0 <= m <= 127 -> 0 <= i < 7 -> toggleDay m (2 ^ i) = Z.lxor m (2 ^ i).
Proof.
  intros Hm Hi. unfold toggleDay, JS.bxor.
  pose proof (pow2_small i Hi).
  now rewrite !ToInt32_small by lia.
Qed.

Lemma lxor_mask_range (m i : Z) :
  0 <= m <= 127 -> 0 <= i < 7 -> 0 <= Z.lxor m (2 ^ i) <= 127.
Proof.
  intros Hm Hi. pose proof (pow2_small i Hi) as Hp.
  assert (Hnn : 0 <= Z.lxor m (2 ^ i)) by (apply Z.lxor_nonneg; lia).
  split; [assumption|].
  destruct (Z.eq_dec (Z.lxor m (2 ^ i)) 0) as [->|Hz]; [lia|].
  assert (Hlog : Z.log2 (Z.lxor m (2 ^ i)) < 7).
  { eapply Z.le_lt_trans; [apply Z.log2_lxor; lia|].
    apply Z.max_lub_lt.
    - destruct (Z.eq_dec m 0) as [->|]; [reflexivity|].
      apply Z.log2_lt_pow2; lia.
    - apply Z.log2_lt_pow2; lia. }
  apply Z.log2_lt_pow2 in Hlog; lia.
Qed.

(** Every bit value listed in [DAYS] is a power of two below 2^7. *)
Lemma day_bit_pow2 (b : Z) :
  In b (map bit DAYS) -> exists i, 0 <= i < 7 /\ b = 2 ^ i.
Proof.
  simpl. intros H.
  repeat (destruct H as [<-|H]);
    [ exists 0 | exists 1 | exists 2 | exists 3 | exists 4 | exists 5 | exists 6 | contradiction ];
    (split; [lia | reflexivity]).
Qed.

(** ** The day mask *)

(** C5: for every mask [m] in [0,127] and every day bit [b] of [DAYS],
    [isDayActive (toggleDay m b) b] is the opposite of [isDayActive m b];
    [toggleDay] is the exclusive or with [b] and [isDayActive] tests that
    the conjunction with [b] is not zero. *)
Theorem toggleDay_flips_isDayActive (m b : Z) :
  0 <= m <= 127 -> In b (map bit DAYS) ->
  isDayActive (toggleDay m b) b = negb (isDayActive m b)
  /\ toggleDay m b = Z.lxor m b
  /\ isDayActive m b = negb (Z.land m b =? 0).
Proof.
  intros Hm Hb.
  destruct (day_bit_pow2 b Hb) as (i & Hi & ->).
  pose proof (lxor_mask_range m i Hm Hi) as Hx.
  pose proof (pow2_small i Hi) as Hp.
  repeat split.
  - rewrite toggleDay_lxor by assumption.
    rewrite !isDayActive_testbit by assumption.
    rewrite Z.lxor_spec, Z.pow2_bits_true by lia.
    now destruct (Z.testbit m i).
  - now apply toggleDay_lxor.
  - unfold isDayActive, JS.band. now rewrite !ToInt32_small by lia.
Qed.

Lemma toggleDay_flips_isDayActive_witness :
  isDayActive (toggleDay 5 4) 4 = negb (isDayActive 5 4)
  /\ toggleDay 5 4 = Z.lxor 5 4
  /\ isDayActive 5 4 = negb (Z.land 5 4 =? 0).
Proof.
  apply (toggleDay_flips_isDayActive 5 4).
  - lia.
  - simpl. tauto.
Defined.

(** C9: for every mask [m] in [0,127] and every day bit [b] of [DAYS],
    [toggleDay m b] is again in [0,127]. *)
Theorem toggleDay_in_range (m b : Z) :
  0 <= m <= 127 -> In b (map bit DAYS) -> 0 <= toggleDay m b <= 127.
Proof.
  intros Hm Hb.
  destruct (day_bit_pow2 b Hb) as (i & Hi & ->).
  rewrite toggleDay_lxor by assumption.
  now apply lxor_mask_range.
Qed.

Lemma toggleDay_in_range_witness : 0 <= toggleDay 127 64 <= 127.
Proof.
  apply (toggleDay_in_range 127 64).
  - lia.
  - simpl. tauto.
Defined.

Lemma filter_DAYS_setDayLabels (m : Z) :
  0 <= m <= 127 ->
  map label (filter (fun d => isDayActive m (bit d)) DAYS) = setDayLabels m.
Proof.
  intros Hm.
  pose proof (isDayActive_testbit m 0 Hm ltac:(lia)) as H0.
  pose proof (isDayActive_testbit m 1 Hm ltac:(lia)) as H1.
  pose proof (isDayActive_testbit m 2 Hm ltac:(lia)) as H2.
  pose proof (isDayActive_testbit m 3 Hm ltac:(lia)) as H3.
  pose proof (isDayActive_testbit m 4 Hm ltac:(lia)) as H4.
  pose proof (isDayActive_testbit m 5 Hm ltac:(lia)) as H5.
  pose proof (isDayActive_testbit m 6 Hm ltac:(lia)) as H6.
  change (2 ^ 0) with 1 in H0. change (2 ^ 1) with 2 in H1.
  change (2 ^ 2) with 4 in H2. change (2 ^ 3) with 8 in H3.
  change (2 ^ 4) with 16 in H4. change (2 ^ 5) with 32 in H5.
  change (2 ^ 6) with 64 in H6.
  unfold DAYS, setDayLabels. cbn [filter bit seq flat_map].
  rewrite H0, H1, H2, H3, H4, H5, H6.
  cbn [Z.of_nat Pos.of_succ_nat Pos.succ nth dayNames].
  destruct (Z.testbit m 0), (Z.testbit m 1), (Z.testbit m 2), (Z.testbit m 3),
    (Z.testbit m 4), (Z.testbit m 5), (Z.testbit m 6); reflexivity.
Qed.

Lemma string_app_assoc (a b c : string) : (a ++ b) ++ c = a ++ b ++ c.
Proof.
  induction a as [|x a IH]; cbn [String.append]; [reflexivity|].
  now rewrite IH.
Qed.

Lemma fold_left_prepend (sep p x : string) (rest : list string) :
  fold_left (fun text l => text ++ sep ++ l) rest (p ++ x)
  = p ++ fold_left (fun text l => text ++ sep ++ l) rest x.
Proof.
  revert x. induction rest as [|y rest IH]; intros x; cbn [fold_left].
  - reflexivity.
  - now rewrite string_app_assoc, IH.
Qed.

(** [join] writes the pieces one after the other with the separator
    before each but the first. *)
Lemma join_fold_left (sep x : string) (rest : list string) :
  JS.join sep (x :: rest)
  = fold_left (fun text l => text ++ sep ++ l) rest x.
Proof.
  revert x. induction rest as [|y rest IH]; intros x.
  - reflexivity.
  - change (JS.join sep (x :: y :: rest))
      with (x ++ sep ++ JS.join sep (y :: rest)).
    rewrite IH. cbn [fold_left].
    now rewrite !fold_left_prepend.
Qed.

Lemma join_commaJoined (labels : list string) :
  JS.join ", " labels = commaJoined labels.
Proof.
  destruct labels as [|x rest]; [reflexivity|]. apply join_fold_left.
Qed.

(** C4: for every mask in [0,127], [formatDaysDescription] is "Every day"
    for 127, "Weekdays" for 31, "Weekends" for 96, and for every other mask
    the names of exactly the days whose bits are set, Monday to Sunday,
    each but the first preceded by a comma and a blank. *)
Theorem formatDaysDescription_spec (mask : Z) :
  0 <= mask <= 127 ->
  (mask = 127 -> formatDaysDescription mask = "Every day")
  /\ (mask = 31 -> formatDaysDescription mask = "Weekdays")
  /\ (mask = 96 -> formatDaysDescription mask = "Weekends")
  /\ (mask <> 127 -> mask <> 31 -> mask <> 96 ->
      formatDaysDescription mask = commaJoined (setDayLabels mask)).
Proof.
  intros Hm. repeat split.
  - now intros ->.
  - now intros ->.
  - now intros ->.
  - intros H127 H31 H96. unfold formatDaysDescription.
    destruct (Z.eqb_spec mask 127); [contradiction|].
    destruct (Z.eqb_spec mask 31); [contradiction|].
    destruct (Z.eqb_spec mask 96); [contradiction|].
    cbv zeta. rewrite filter_DAYS_setDayLabels by assumption.
    apply join_commaJoined.
Qed.

Lemma formatDaysDescription_spec_witness :
  formatDaysDescription 21 = commaJoined (setDayLabels 21)
  /\ commaJoined (setDayLabels 21) = "Mon, Wed, Fri"
  /\ formatDaysDescription 21 = "Mon, Wed, Fri"
  /\ formatDaysDescription 64 = "Sun".
Proof.
  assert (E21 : formatDaysDescription 21 = commaJoined (setDayLabels 21))
    by (apply (formatDaysDescription_spec 21); lia).
  assert (E64 : formatDaysDescription 64 = commaJoined (setDayLabels 64))
    by (apply (formatDaysDescription_spec 64); lia).
  split; [exact E21|].
  split; [reflexivity|].
  split; [rewrite E21 | rewrite E64]; reflexivity.
Defined.

(** C8: the all-zero mask is described by the empty string. *)
Theorem formatDaysDescription_zero : formatDaysDescription 0 = "".
Proof. reflexivity. Qed.

(** ** Durations *)

Lemma roundHalfEven_cases (num den : Z) :
  0 < den ->
  (JS.roundHalfEven num den = num / den /\ 2 * (num mod den) <= den)
  \/ (JS.roundHalfEven num den = num / den + 1 /\ den <= 2 * (num mod den)).
Proof.
  intros Hden. unfold JS.roundHalfEven. cbv zeta.
  destruct (Z.ltb_spec (2 * (num mod den)) den); [left; split; lia|].
  destruct (Z.ltb_spec den (2 * (num mod den))); [right; split; lia|].
  destruct (Z.even (num / den)); [left | right]; split; lia.
Qed.

Lemma binade_upper (n d : Z) : JS.binade n d <= Z.log2 n - Z.log2 d.
Proof.
  unfold JS.binade. cbv zeta.
  destruct (if 0 <=? Z.log2 n - Z.log2 d then _ else _); lia.
Qed.

(** Below 2^53 the rounding of the division by 60 never reaches the next
    integer: the floor of the double quotient is the integer quotient. *)
Lemma floorQuotient_60_exact (a : Z) :
  0 < a < 2 ^ 53 -> JS.floorQuotient a 60 = a / 60.
Proof.
  intros Ha. unfold JS.floorQuotient.
  destruct (Z.eqb_spec a 0); [lia|]. cbv zeta.
  rewrite Z.abs_eq, Z.sgn_pos by lia.
  assert (Hk : JS.binade a 60 <= 47).
  { pose proof (binade_upper a 60) as Hb.
    assert (Z.log2 a < 53) by (apply Z.log2_lt_pow2; lia).
    change (Z.log2 60) with 5 in Hb. lia. }
  destruct (Z.leb_spec 0 (JS.binade a 60 - 52)); [lia|].
  set (s := - (JS.binade a 60 - 52)).
  assert (Hs : 5 <= s) by (unfold s; lia).
  set (P := 2 ^ s).
  assert (HP : 32 <= P).
  { unfold P. change 32 with (2 ^ 5). apply Z.pow_le_mono_r; lia. }
  rewrite Z.mul_1_l.
  set (q := a / 60). set (r := a mod 60).
  assert (Ea : a = 60 * q + r) by (apply Z.div_mod; lia).
  assert (Hr : 0 <= r < 60) by (apply Z.mod_pos_bound; lia).
  set (X := q * P).
  set (Y := r * P).
  assert (HY : 0 <= Y <= 59 * P).
  { unfold Y. split; [apply Z.mul_nonneg_nonneg; lia|].
    apply Z.mul_le_mono_nonneg_r; lia. }
  assert (EN : a * P = 60 * X + Y) by (unfold X, Y; rewrite Ea at 1; ring).
  pose proof (Z.div_mod (a * P) 60 ltac:(lia)) as EqN.
  pose proof (Z.mod_pos_bound (a * P) 60 ltac:(lia)) as HrN.
  assert (Hm : X <= JS.roundHalfEven (a * P) 60 < X + P).
  { destruct (roundHalfEven_cases (a * P) 60 ltac:(lia)) as [[-> H2]|[-> H2]];
      lia. }
  symmetry. apply (Z.div_unique_pos _ _ _ (JS.roundHalfEven (a * P) 60 - X)).
  - lia.
  - unfold X. ring.
Qed.

(** C3, as it holds: for a positive number of minutes below 2^53 (the
    integers a number holds exactly), with [hours = minutes div 60] and
    [mins = minutes mod 60], [formatDuration] is "<mins>m" when [hours] is
    zero, "<hours>h" when [mins] is zero and "<hours>h <mins>m" otherwise;
    240 gives "4h", 90 gives "1h 30m" and 30 gives "30m". *)
Theorem formatDuration_spec :
  (forall minutes : Z, 0 < minutes < 2 ^ 53 ->
     let hours := minutes / 60 in
     let mins := minutes mod 60 in
     (hours = 0 ->
      formatDuration minutes = JS.numberToString mins ++ "m")
     /\ (mins = 0 ->
         formatDuration minutes = JS.numberToString hours ++ "h")
     /\ (hours <> 0 -> mins <> 0 ->
         formatDuration minutes =
         JS.numberToString hours ++ "h " ++ JS.numberToString mins ++ "m"))
  /\ formatDuration 240 = "4h"
  /\ formatDuration 90 = "1h 30m"
  /\ formatDuration 30 = "30m".
Proof.
  split; [|repeat split; reflexivity].
  intros minutes Hpos hours mins.
  assert (Hrem : JS.remainder minutes 60 = mins)
    by (unfold JS.remainder; apply Z.rem_mod_nonneg; lia).
  assert (Hdiv : minutes = 60 * hours + mins)
    by (apply Z.div_mod; lia).
  unfold formatDuration. rewrite Hrem, floorQuotient_60_exact by assumption.
  fold hours. cbv zeta.
  repeat split.
  - intros Hh. rewrite Hh. reflexivity.
  - intros Hm0.
    destruct (Z.eqb_spec hours 0) as [Hh|Hh]; [lia|].
    rewrite Hm0. reflexivity.
  - intros Hh Hm0.
    destruct (Z.eqb_spec hours 0); [contradiction|].
    destruct (Z.eqb_spec mins 0); [contradiction|].
    reflexivity.
Qed.

Lemma formatDuration_spec_witness :
  (135 / 60 <> 0 -> 135 mod 60 <> 0 ->
   formatDuration 135 =
   JS.numberToString (135 / 60) ++ "h " ++ JS.numberToString (135 mod 60) ++ "m")
  /\ formatDuration 135 = "2h 15m".
Proof.
  split.
  - apply (proj1 formatDuration_spec 135). lia.
  - reflexivity.
Defined.

(** C3 as first stated, for every positive integer, fails beyond 2^53:
    2^56 + 160 is a number held exactly, its quotient by 60 is
    1200959900632134 and a fraction, and the division rounds it up to
    1200959900632135 before the floor is taken. *)
Lemma formatDuration_beyond_safe_integers :
  formatDuration (2 ^ 56 + 160) = "1200959900632135h 56m"
  /\ (2 ^ 56 + 160) / 60 = 1200959900632134
  /\ ~ (forall minutes : Z, 0 < minutes ->
          let hours := minutes / 60 in
          let mins := minutes mod 60 in
          (hours = 0 ->
           formatDuration minutes = JS.numberToString mins ++ "m")
          /\ (mins = 0 ->
              formatDuration minutes = JS.numberToString hours ++ "h")
          /\ (hours <> 0 -> mins <> 0 ->
              formatDuration minutes =
              JS.numberToString hours ++ "h " ++ JS.numberToString mins ++ "m")).
Proof.
  split; [vm_compute; reflexivity|]. split; [vm_compute; reflexivity|].
  intros H.
  destruct (H (2 ^ 56 + 160) ltac:(lia)) as (_ & _ & H3).
  assert (E : formatDuration (2 ^ 56 + 160)
              = JS.numberToString ((2 ^ 56 + 160) / 60) ++ "h "
                ++ JS.numberToString ((2 ^ 56 + 160) mod 60) ++ "m")
    by (apply H3; vm_compute; discriminate).
  vm_compute in E. discriminate E.
Qed.

(** ** Next-run rendering *)

Lemma diffHours_lt_24 (diffMs : Z) :
  JS.floorDiv diffMs (1000 * 60 * 60) < 24 <-> diffMs < 24 * Date.msPerHour.
Proof.
  unfold JS.floorDiv, Date.msPerHour.
  change (1000 * 60 * 60) with 3600000.
  split; intros H.
  - destruct (Z_lt_le_dec diffMs (24 * 3600000)) as [|Hge]; [assumption|].
    assert (24 <= diffMs / 3600000) by (apply Z.div_le_lower_bound; lia).
    lia.
  - apply Z.div_lt_upper_bound; lia.
Qed.

(** C7: [formatNextRun] renders the time of day alone when the instant is
    less than 24 hours after the moment of formatting, and the short
    weekday with the time of day when it is 24 hours or more after it. *)
Theorem formatNextRun_threshold
    (toLocaleTimeString toLocaleString : Z -> string) (now t : Z) :
  (t - now < 24 * Date.msPerHour ->
   formatNextRun toLocaleTimeString toLocaleString now (Some t)
   = toLocaleTimeString t)
  /\ (24 * Date.msPerHour <= t - now ->
      formatNextRun toLocaleTimeString toLocaleString now (Some t)
      = toLocaleString t).
Proof.
  unfold formatNextRun. cbv zeta.
  pose proof (diffHours_lt_24 (t - now)) as Hiff.
  destruct (Z.ltb_spec (JS.floorDiv (t - now) (1000 * 60 * 60)) 24) as [Hlt|Hge];
    split; intros H; try reflexivity.
  - apply Hiff in Hlt. lia.
  - apply Hiff in H. lia.
Qed.

(** C10: an instant at or before the moment of formatting is rendered as
    the time of day alone: its floored difference in hours is at most
    zero, below the threshold of 24. *)
Theorem formatNextRun_past
    (toLocaleTimeString toLocaleString : Z -> string) (now t : Z) :
  t <= now ->
  JS.floorDiv (t - now) (1000 * 60 * 60) <= 0
  /\ formatNextRun toLocaleTimeString toLocaleString now (Some t)
     = toLocaleTimeString t.
Proof.
  intros Hle.
  assert (Hd : JS.floorDiv (t - now) (1000 * 60 * 60) <= 0).
  { unfold JS.floorDiv. change (1000 * 60 * 60) with 3600000.
    assert (t - now < 3600000 * 1) by lia.
    assert ((t - now) / 3600000 < 1) by (apply Z.div_lt_upper_bound; lia).
    lia. }
  split; [assumption|].
  unfold formatNextRun. cbv zeta.
  destruct (Z.ltb_spec (JS.floorDiv (t - now) (1000 * 60 * 60)) 24); [reflexivity|lia].
Qed.

Lemma formatNextRun_threshold_witness :
  formatNextRun utcTime24 utcWeekdayTime24 0 (Some 3600000) = "01:00"
  /\ formatNextRun utcTime24 utcWeekdayTime24 0 (Some 90000000) = "Fri 01:00".
Proof.
  split.
  - rewrite (proj1 (formatNextRun_threshold utcTime24 utcWeekdayTime24 0 3600000)).
    + reflexivity.
    + unfold Date.msPerHour. lia.
  - rewrite (proj2 (formatNextRun_threshold utcTime24 utcWeekdayTime24 0 90000000)).
    + reflexivity.
    + unfold Date.msPerHour. lia.
Defined.

Lemma formatNextRun_past_witness :
  JS.floorDiv (1000 - 5000) (1000 * 60 * 60) <= 0
  /\ formatNextRun utcTime24 utcWeekdayTime24 5000 (Some 1000) = utcTime24 1000.
Proof.
  apply (formatNextRun_past utcTime24 utcWeekdayTime24 5000 1000). lia.
Defined.

(** ** Conversion between UTC and local time of day *)

Ltac enum_digit x :=
  let H := fresh "H" in
  assert (H : x = 0 \/ x = 1 \/ x = 2 \/ x = 3 \/ x = 4 \/ x = 5 \/ x = 6 \/
              x = 7 \/ x = 8 \/ x = 9) by lia;
  repeat (destruct H as [H|H]); subst x.

Lemma digitOf_digitChar (c : ascii) (x : Z) :
  digitOf c = Some x -> 0 <= x < 10 /\ c = digitChar x.
Proof.
  unfold digitOf, digitChar. cbv zeta.
  set (n := Z.of_nat (nat_of_ascii c)).
  destruct (Z.leb_spec 48 n); [|discriminate].
  destruct (Z.leb_spec n 57); [|discriminate].
  cbn [andb]. intros [= <-]. split; [lia|].
  replace (48 + (n - 48)) with n by lia.
  unfold n. now rewrite Nat2Z.id, ascii_nat_embedding.
Qed.

Lemma digitChar_digitOf (x : Z) :
  0 <= x < 10 ->
  digitOf (digitChar x) = Some x /\ Ascii.eqb (digitChar x) ":" = false.
Proof.
  intros Hx. enum_digit x; split; reflexivity.
Qed.

Lemma pad2_two_digits (x y : Z) :
  0 <= x < 10 -> 0 <= y < 10 ->
  pad2 (10 * x + y) = String (digitChar x) (String (digitChar y) "").
Proof.
  intros Hx Hy. enum_digit x; enum_digit y; reflexivity.
Qed.

Lemma parseHHMM_digits (x y z w : Z) :
  0 <= x < 10 -> 0 <= y < 10 -> 0 <= z < 10 -> 0 <= w < 10 ->
  parseHHMM (String (digitChar x) (String (digitChar y)
              (String ":" (String (digitChar z) (String (digitChar w) "")))))
  = Some (10 * x + y, 10 * z + w).
Proof.
  intros Hx Hy Hz Hw.
  destruct (digitChar_digitOf x Hx) as [Dx Cx].
  destruct (digitChar_digitOf y Hy) as [Dy Cy].
  destruct (digitChar_digitOf z Hz) as [Dz Cz].
  destruct (digitChar_digitOf w Hw) as [Dw Cw].
  unfold parseHHMM, split.
  cbn [splitFrom]. rewrite Cx, Cy, Cz, Cw.
  cbn [Ascii.eqb Bool.eqb String.append map Number digitsFrom].
  rewrite Dx, Dy, Dz, Dw.
  reflexivity.
Qed.

(** Writing a time of day and reading it back. *)
Lemma parseHHMM_pad2 (h m : Z) :
  0 <= h < 24 -> 0 <= m < 60 ->
  parseHHMM (pad2 h ++ ":" ++ pad2 m) = Some (h, m).
Proof.
  intros Hh Hm.
  assert (Eh : h = 10 * (h / 10) + h mod 10) by (apply Z.div_mod; lia).
  assert (Em : m = 10 * (m / 10) + m mod 10) by (apply Z.div_mod; lia).
  assert (0 <= h / 10 < 10 /\ 0 <= h mod 10 < 10) as [? ?]
    by (split; [split; [apply Z.div_pos | apply Z.div_lt_upper_bound]; lia
               | apply Z.mod_pos_bound; lia]).
  assert (0 <= m / 10 < 10 /\ 0 <= m mod 10 < 10) as [? ?]
    by (split; [split; [apply Z.div_pos | apply Z.div_lt_upper_bound]; lia
               | apply Z.mod_pos_bound; lia]).
  rewrite Eh at 1. rewrite Em at 1.
  rewrite !pad2_two_digits by assumption.
  cbn [String.append].
  rewrite parseHHMM_digits by assumption.
  now rewrite <- Eh, <- Em.
Qed.

(** A well-formed string is the writing of its hour and minute. *)
Lemma isHHMM_pad2 (t : string) :
  isHHMM t = true ->
  exists h m, 0 <= h < 24 /\ 0 <= m < 60 /\ t = pad2 h ++ ":" ++ pad2 m.
Proof.
  destruct t as [|a [|b [|c [|d [|e [|]]]]]]; try discriminate.
  cbn [isHHMM]. intros H.
  apply andb_true_iff in H. destruct H as [Hc H].
  apply Ascii.eqb_eq in Hc. subst c.
  destruct (digitOf a) as [x|] eqn:Da; [|discriminate].
  destruct (digitOf b) as [y|] eqn:Db; [|discriminate].
  destruct (digitOf d) as [z|] eqn:Dd; [|discriminate].
  destruct (digitOf e) as [w|] eqn:De; [|discriminate].
  apply andb_true_iff in H. destruct H as [Hh Hm].
  apply Z.ltb_lt in Hh, Hm.
  apply digitOf_digitChar in Da, Db, Dd, De.
  destruct Da as [? ->], Db as [? ->], Dd as [? ->], De as [? ->].
  exists (10 * x + y), (10 * z + w).
  repeat split; try lia.
  now rewrite !pad2_two_digits by assumption.
Qed.

(** The hour and minute fields of an instant that is a whole number [X]
    of minutes. *)
Lemma fields_of_minutes (X : Z) :
  Date.HourFromTime (X * Date.msPerMinute) = (X / 60) mod 24
  /\ Date.MinFromTime (X * Date.msPerMinute) = X mod 60.
Proof.
  unfold Date.HourFromTime, Date.MinFromTime, Date.msPerHour, Date.msPerMinute.
  split.
  - change 3600000 with (60 * 60000).
    now rewrite Z.div_mul_cancel_r by lia.
  - now rewrite Z.div_mul by lia.
Qed.

Lemma setHours_minutes (tz : Date.TimeZone) (now h m : Z) :
  Date.setHours tz now h m 0 0
  = (Date.Day (Date.LocalTime tz now) * 1440 + 60 * h + m
     - Date.offsetMinutes tz) * Date.msPerMinute.
Proof.
  unfold Date.setHours, Date.UTC, Date.MakeDate, Date.MakeTime, Date.LocalTZA,
    Date.msPerDay, Date.msPerHour, Date.msPerMinute.
  lia.
Qed.

Lemma setUTCHours_local_minutes (tz : Date.TimeZone) (now h m : Z) :
  Date.LocalTime tz (Date.setUTCHours now h m 0 0)
  = (Date.Day now * 1440 + 60 * h + m + Date.offsetMinutes tz)
    * Date.msPerMinute.
Proof.
  unfold Date.setUTCHours, Date.LocalTime, Date.MakeDate, Date.MakeTime,
    Date.LocalTZA, Date.msPerDay, Date.msPerHour, Date.msPerMinute.
  lia.
Qed.

Lemma localToUTC_pad2 (tz : Date.TimeZone) (now h m : Z) :
  0 <= h < 24 -> 0 <= m < 60 ->
  let X := Date.Day (Date.LocalTime tz now) * 1440 + 60 * h + m
           - Date.offsetMinutes tz in
  localToUTC tz now (pad2 h ++ ":" ++ pad2 m)
  = Some (pad2 ((X / 60) mod 24) ++ ":" ++ pad2 (X mod 60)).
Proof.
  intros Hh Hm X. unfold localToUTC.
  rewrite parseHHMM_pad2 by assumption. cbv zeta.
  unfold Date.getUTCHours, Date.getUTCMinutes.
  rewrite setHours_minutes. fold X.
  destruct (fields_of_minutes X) as [-> ->].
  reflexivity.
Qed.

Lemma utcToLocal_pad2 (tz : Date.TimeZone) (now h m : Z) :
  0 <= h < 24 -> 0 <= m < 60 ->
  let Y := Date.Day now * 1440 + 60 * h + m + Date.offsetMinutes tz in
  utcToLocal tz now (pad2 h ++ ":" ++ pad2 m)
  = Some (pad2 ((Y / 60) mod 24) ++ ":" ++ pad2 (Y mod 60)).
Proof.
  intros Hh Hm Y. unfold utcToLocal.
  rewrite parseHHMM_pad2 by assumption. cbv zeta.
  unfold Date.getHours, Date.getMinutes.
  rewrite setUTCHours_local_minutes. fold Y.
  destruct (fields_of_minutes Y) as [-> ->].
  reflexivity.
Qed.

(** Going to UTC and back leaves the minute of the day unchanged, whatever
    the two dates are. *)
Lemma minute_of_day_round_trip (D1 D2 off h m : Z) :
  0 <= h < 24 -> 0 <= m < 60 ->
  let X := D1 * 1440 + 60 * h + m - off in
  let Y := D2 * 1440 + 60 * ((X / 60) mod 24) + X mod 60 + off in
  (Y / 60) mod 24 = h /\ Y mod 60 = m.
Proof.
  intros Hh Hm X Y. subst Y.
  assert (EX : X = D1 * 1440 + 60 * h + m - off) by reflexivity.
  clearbody X.
  Z.div_mod_to_equations. lia.
Qed.

(** C6: for every well-formed local "HH:MM", converting to UTC and back
    gives the string again, under a fixed offset of the viewer's zone;
    the two conversions may read the clock at different moments. *)
Theorem utcToLocal_localToUTC
    (tz : Date.TimeZone) (now1 now2 : Z) (t : string) :
  isHHMM t = true ->
  exists u, localToUTC tz now1 t = Some u /\ utcToLocal tz now2 u = Some t.
Proof.
  intros Ht.
  destruct (isHHMM_pad2 t Ht) as (h & m & Hh & Hm & ->).
  eexists. split.
  - now apply localToUTC_pad2.
  - cbv zeta.
    set (X := Date.Day (Date.LocalTime tz now1) * 1440 + 60 * h + m
              - Date.offsetMinutes tz).
    assert (0 <= (X / 60) mod 24 < 24) by (apply Z.mod_pos_bound; lia).
    assert (0 <= X mod 60 < 60) by (apply Z.mod_pos_bound; lia).
    rewrite utcToLocal_pad2 by assumption. cbv zeta.
    destruct (minute_of_day_round_trip
                (Date.Day (Date.LocalTime tz now1)) (Date.Day now2)
                (Date.offsetMinutes tz) h m Hh Hm) as [E1 E2].
    cbv zeta in E1, E2. fold X in E1, E2.
    now rewrite E1, E2.
Qed.

Lemma utcToLocal_localToUTC_witness :
  exists u,
    localToUTC (Date.mkZone 540) 1700000000000 "07:05" = Some u
    /\ utcToLocal (Date.mkZone 540) 1700086400000 u = Some "07:05".
Proof.
  apply (utcToLocal_localToUTC (Date.mkZone 540) 1700000000000 1700086400000 "07:05").
  reflexivity.
Defined.

(** ** The resolver *)

Module EngineFacts.
Import Engine.

Lemma fold_left_max_spec (rest : list Z) (x : Z) :
  let e := fold_left Z.max rest x in
  In e (x :: rest) /\ forall y, In y (x :: rest) -> y <= e.
Proof.
  revert x. induction rest as [|z rest IH]; intros x; cbn [fold_left].
  - split; [now left|]. intros y [<-|[]]. lia.
  - destruct (IH (Z.max x z)) as [Hin Hub]. split.
    + destruct Hin as [Hin|Hin].
      * rewrite <- Hin. destruct (Z.max_spec x z) as [[_ ->]|[_ ->]].
        -- right. now left.
        -- now left.
      * right. now right.
    + intros y Hy.
      assert (Hm : Z.max x z <= fold_left Z.max rest (Z.max x z))
        by (apply Hub; now left).
      destruct Hy as [<-|[<-|Hy]]; [lia | lia |].
      apply Hub. now right.
Qed.

Lemma fold_left_min_spec (rest : list Z) (x : Z) :
  let e := fold_left Z.min rest x in
  In e (x :: rest) /\ forall y, In y (x :: rest) -> e <= y.
Proof.
  revert x. induction rest as [|z rest IH]; intros x; cbn [fold_left].
  - split; [now left|]. intros y [<-|[]]. lia.
  - destruct (IH (Z.min x z)) as [Hin Hlb]. split.
    + destruct Hin as [Hin|Hin].
      * rewrite <- Hin. destruct (Z.min_spec x z) as [[_ ->]|[_ ->]].
        -- now left.
        -- right. now left.
      * right. now right.
    + intros y Hy.
      assert (Hm : fold_left Z.min rest (Z.min x z) <= Z.min x z)
        by (apply Hlb; now left).
      destruct Hy as [<-|[<-|Hy]]; [lia | lia |].
      apply Hlb. now right.
Qed.

Lemma maximum_Some (xs : list Z) (e : Z) :
  maximum xs = Some e <-> In e xs /\ forall y, In y xs -> y <= e.
Proof.
  destruct xs as [|x rest]; cbn [maximum].
  - split; [discriminate | intros [[] _]].
  - destruct (fold_left_max_spec rest x) as [Hin Hub]. cbv zeta in Hin, Hub.
    split.
    + intros [= <-]. now split.
    + intros [He Hle]. f_equal.
      apply Z.le_antisymm; [now apply Hle | now apply Hub].
Qed.

Lemma minimum_Some (xs : list Z) (e : Z) :
  minimum xs = Some e <-> In e xs /\ forall y, In y xs -> e <= y.
Proof.
  destruct xs as [|x rest]; cbn [minimum].
  - split; [discriminate | intros [[] _]].
  - destruct (fold_left_min_spec rest x) as [Hin Hlb]. cbv zeta in Hin, Hlb.
    split.
    + intros [= <-]. now split.
    + intros [He Hle]. f_equal.
      apply Z.le_antisymm; [now apply Hlb | now apply Hle].
Qed.

Lemma minimum_None (xs : list Z) : minimum xs = None <-> xs = [].
Proof. destruct xs; cbn [minimum]; split; intros H; congruence. Qed.

Lemma covers_iff (now : Z) (o : Occurrence) :
  covers now o = true <-> start o <= now < end_ o.
Proof.
  unfold covers. rewrite andb_true_iff, Z.leb_le, Z.ltb_lt. tauto.
Qed.

Lemma startsAfter_iff (now : Z) (o : Occurrence) :
  startsAfter now o = true <-> now < start o.
Proof. unfold startsAfter. apply Z.ltb_lt. Qed.

(** The running branch of [resolve]. *)
Lemma resolve_running (schedules : list Schedule) (now : Z) :
  filter (covers now) (expand schedules now) <> [] ->
  resolve schedules now
  = mkResolved true
      (maximum (map end_ (filter (covers now) (expand schedules now)))) None.
Proof.
  intros Hne. unfold resolve. cbv zeta.
  destruct (filter (covers now) (expand schedules now)); congruence.
Qed.

(** The idle branch of [resolve]. *)
Lemma resolve_idle (schedules : list Schedule) (now : Z) :
  filter (covers now) (expand schedules now) = [] ->
  resolve schedules now
  = mkResolved false None
      (minimum (map start (filter (startsAfter now) (expand schedules now)))).
Proof.
  intros He. unfold resolve. cbv zeta. now rewrite He.
Qed.

Lemma Day_MakeDate (d time : Z) :
  0 <= time < Date.msPerDay -> Date.Day (Date.MakeDate d time) = d.
Proof.
  intros Ht. unfold Date.Day, Date.MakeDate.
  rewrite Z.add_comm, Z.div_add by (unfold Date.msPerDay; lia).
  rewrite Z.div_small by assumption. lia.
Qed.

Lemma weekdayIndex_add (d k : Z) :
  weekdayIndex (d + k) = (weekdayIndex d + k) mod 7.
Proof.
  unfold weekdayIndex.
  rewrite Zplus_mod_idemp_l. f_equal. lia.
Qed.

Lemma occurrenceOn_off (s : Schedule) (d : Z) :
  isDayActive (days_of_week s) (weekdayBit d) = false -> occurrenceOn s d = [].
Proof. intros H. unfold occurrenceOn. now rewrite H. Qed.

Lemma occurrenceOn_on (s : Schedule) (d : Z) :
  isDayActive (days_of_week s) (weekdayBit d) = true ->
  occurrenceOn s d
  = [ mkOccurrence
        (Date.MakeDate d (Date.MakeTime (start_hour s) (start_minute s) 0 0))
        (Date.MakeDate d (Date.MakeTime (start_hour s) (start_minute s) 0 0)
         + duration_minutes s * Date.msPerMinute)
        (id s) ].
Proof. intros H. unfold occurrenceOn. now rewrite H. Qed.

Lemma generate_at (s : Schedule) (d time : Z) :
  0 <= time < Date.msPerDay ->
  generate s (Date.MakeDate d time)
  = flat_map (fun k => occurrenceOn s (d + k)) dayOffsets.
Proof. intros Ht. unfold generate. now rewrite Day_MakeDate. Qed.

(** Settles which of the days around [d] carry an occurrence, from the
    weekday [Hd] of [d]. *)
Ltac settle_days Hd :=
  repeat match goal with
  | |- context [occurrenceOn ?s (?d + ?k)] =>
      first
        [ rewrite (occurrenceOn_off s (d + k))
            by (unfold weekdayBit; rewrite weekdayIndex_add, Hd; reflexivity)
        | rewrite (occurrenceOn_on s (d + k))
            by (unfold weekdayBit; rewrite weekdayIndex_add, Hd; reflexivity) ]
  end.

(** Settles the comparisons of instants left in the goal. *)
Ltac settle_order :=
  repeat match goal with
  | |- context [?a <=? ?b] =>
      first [ rewrite (proj2 (Z.leb_le a b)) by lia
            | rewrite (proj2 (Z.leb_gt a b)) by lia ]
  | |- context [?a <? ?b] =>
      first [ rewrite (proj2 (Z.ltb_lt a b)) by lia
            | rewrite (proj2 (Z.ltb_ge a b)) by lia ]
  end.

Ltac unfold_instants :=
  unfold Date.MakeDate, Date.MakeTime, Date.msPerDay, Date.msPerHour,
    Date.msPerMinute in *.

(** A Monday-only schedule from 22:00 UTC for ten hours, seen on a Tuesday
    at 03:00 UTC: running until 08:00. *)
Lemma monday_night_running (i : nat) (p : string) (d : Z) :
  weekdayIndex d = 1 ->
  resolve [mkSchedule i p 1 22 0 600 true]
    (Date.MakeDate d (Date.MakeTime 3 0 0 0))
  = mkResolved true (Some (Date.MakeDate d (Date.MakeTime 8 0 0 0))) None.
Proof.
  intros Hd. unfold resolve, expand.
  cbn [filter enabled flat_map]. rewrite app_nil_r.
  rewrite generate_at by (unfold_instants; lia).
  unfold dayOffsets. cbn [flat_map]. settle_days Hd.
  cbn [app filter days_of_week start_hour start_minute duration_minutes id].
  unfold covers. cbn [start end_].
  unfold_instants. settle_order.
  cbn [andb map maximum fold_left end_].
  f_equal. f_equal. lia.
Qed.

(** The same schedule seen on that Tuesday at 09:00 UTC, after the window
    closed: the next start is the Monday six days later, at 22:00. *)
Lemma monday_night_next (i : nat) (p : string) (d : Z) :
  weekdayIndex d = 1 ->
  resolve [mkSchedule i p 1 22 0 600 true]
    (Date.MakeDate d (Date.MakeTime 9 0 0 0))
  = mkResolved false None
      (Some (Date.MakeDate (d + 6) (Date.MakeTime 22 0 0 0))).
Proof.
  intros Hd. unfold resolve, expand.
  cbn [filter enabled flat_map]. rewrite app_nil_r.
  rewrite generate_at by (unfold_instants; lia).
  unfold dayOffsets. cbn [flat_map]. settle_days Hd.
  cbn [app filter days_of_week start_hour start_minute duration_minutes id].
  unfold covers, startsAfter. cbn [start end_].
  unfold_instants. settle_order.
  cbn [andb map minimum fold_left start].
  reflexivity.
Qed.

(** Two schedules on a Monday, one from 22:00 for two hours and one from
    20:00 for six hours, seen at 23:00: the windows end one hour and three
    hours later, and the later end is reported, in either order. *)
Lemma overlapping_later_end (i j : nat) (p q : string) (d : Z) :
  weekdayIndex d = 0 ->
  let T := Date.MakeDate d (Date.MakeTime 23 0 0 0) in
  let s1 := mkSchedule i p 1 22 0 120 true in
  let s3 := mkSchedule j q 1 20 0 360 true in
  current_end (resolve [s1] T) = Some (T + 1 * Date.msPerHour)
  /\ current_end (resolve [s3] T) = Some (T + 3 * Date.msPerHour)
  /\ resolve [s1; s3] T = mkResolved true (Some (T + 3 * Date.msPerHour)) None
  /\ resolve [s3; s1] T = mkResolved true (Some (T + 3 * Date.msPerHour)) None.
Proof.
  intros Hd T s1 s3. subst T s1 s3.
  repeat split;
    unfold resolve, expand;
    cbn [filter enabled flat_map]; rewrite ?app_nil_r;
    rewrite !generate_at by (unfold_instants; lia);
    unfold dayOffsets; cbn [flat_map]; settle_days Hd;
    cbn [app filter days_of_week start_hour start_minute duration_minutes id];
    unfold covers; cbn [start end_];
    unfold_instants; settle_order;
    cbn [andb map maximum fold_left end_ current_end];
    match goal with
    | |- Some ?a = Some ?b => replace a with b by lia
    | |- mkResolved _ (Some ?a) _ = mkResolved _ (Some ?b) _ =>
        replace a with b by lia
    end; reflexivity.
Qed.

Lemma isDayActive_empty (b : Z) : isDayActive 0 b = false.
Proof.
  unfold isDayActive, JS.band.
  change (JS.ToInt32 0) with 0. now rewrite Z.land_0_l.
Qed.

Lemma generate_empty_mask (s : Schedule) (now : Z) :
  days_of_week s = 0 -> generate s now = [].
Proof.
  intros H0. unfold generate.
  induction dayOffsets as [|k ks IH]; cbn [flat_map]; [reflexivity|].
  rewrite IH, app_nil_r.
  apply occurrenceOn_off. rewrite H0. apply isDayActive_empty.
Qed.

Lemma expand_empty_mask (schedules : list Schedule) (now : Z) :
  Forall (fun s => days_of_week s = 0) schedules -> expand schedules now = [].
Proof.
  unfold expand. induction 1 as [|s rest Hs _ IH]; [reflexivity|].
  cbn [filter]. destruct (enabled s); [|assumption].
  cbn [flat_map]. now rewrite IH, generate_empty_mask.
Qed.

Lemma maximum_None (xs : list Z) : maximum xs = None <-> xs = [].
Proof. destruct xs; cbn [maximum]; split; intros H; congruence. Qed.

Lemma running_iff (schedules : list Schedule) (now : Z) (o : Occurrence) :
  In o (filter (covers now) (expand schedules now))
  <-> In o (expand schedules now) /\ start o <= now < end_ o.
Proof. now rewrite filter_In, covers_iff. Qed.

Lemma upcoming_iff (schedules : list Schedule) (now : Z) (o : Occurrence) :
  In o (filter (startsAfter now) (expand schedules now))
  <-> In o (expand schedules now) /\ now < start o.
Proof. now rewrite filter_In, startsAfter_iff. Qed.

(** C1: when some generated occurrence covers [now], [resolve] reports a
    running state whose [current_end] is the greatest end among the
    occurrences covering [now], and no [next_start].  Two windows that end
    one and three hours after [now] give the later end; the Monday-only
    schedule from 22:00 UTC for 600 minutes, seen on Tuesday at 03:00 UTC,
    runs until Tuesday 08:00 UTC. *)
Theorem resolve_currently_running :
  (forall (schedules : list Schedule) (now : Z),
     (exists o, In o (expand schedules now) /\ start o <= now < end_ o) ->
     is_currently_running (resolve schedules now) = true
     /\ next_start (resolve schedules now) = None
     /\ exists e,
          current_end (resolve schedules now) = Some e
          /\ (exists o, In o (expand schedules now)
                        /\ start o <= now < end_ o /\ end_ o = e)
          /\ (forall o, In o (expand schedules now) ->
                        start o <= now < end_ o -> end_ o <= e))
  /\ (forall (i j : nat) (p q : string) (d : Z),
        weekdayIndex d = 0 ->
        let T := Date.MakeDate d (Date.MakeTime 23 0 0 0) in
        let s1 := mkSchedule i p 1 22 0 120 true in
        let s3 := mkSchedule j q 1 20 0 360 true in
        current_end (resolve [s1] T) = Some (T + 1 * Date.msPerHour)
        /\ current_end (resolve [s3] T) = Some (T + 3 * Date.msPerHour)
        /\ resolve [s1; s3] T
           = mkResolved true (Some (T + 3 * Date.msPerHour)) None
        /\ resolve [s3; s1] T
           = mkResolved true (Some (T + 3 * Date.msPerHour)) None)
  /\ (forall (i : nat) (p : string) (d : Z),
        weekdayIndex d = 1 ->
        resolve [mkSchedule i p 1 22 0 600 true]
          (Date.MakeDate d (Date.MakeTime 3 0 0 0))
        = mkResolved true
            (Some (Date.MakeDate d (Date.MakeTime 8 0 0 0))) None).
Proof.
  split; [|split; [exact overlapping_later_end | exact monday_night_running]].
  intros schedules now (o & Hin & Hcov).
  assert (Hrun : In o (filter (covers now) (expand schedules now)))
    by (apply running_iff; now split).
  assert (Hne : filter (covers now) (expand schedules now) <> [])
    by (intros E; rewrite E in Hrun; contradiction).
  rewrite (resolve_running schedules now Hne).
  cbn [is_currently_running next_start current_end].
  repeat split.
  destruct (maximum (map end_ (filter (covers now) (expand schedules now))))
    as [e|] eqn:Hmax.
  - exists e. split; [reflexivity|].
    apply maximum_Some in Hmax. destruct Hmax as [He Hub].
    apply in_map_iff in He. destruct He as (o' & Hend & Ho').
    apply running_iff in Ho'. destruct Ho' as [Hin' Hcov'].
    split.
    + exists o'. now repeat split.
    + intros o2 Hin2 Hcov2. apply Hub, in_map, running_iff. now split.
  - apply maximum_None, map_eq_nil in Hmax. contradiction.
Qed.

(** C2: when no generated occurrence covers [now], [resolve] reports an
    idle state whose [next_start] is the least start among the occurrences
    that start after [now], unset exactly when there is none.  An empty
    mask gives an idle state with no next start at every instant; the
    Monday-only schedule from 22:00 UTC for 600 minutes, seen on Tuesday at
    09:00 UTC, starts next on the following Monday at 22:00 UTC. *)
Theorem resolve_next_start :
  (forall (schedules : list Schedule) (now : Z),
     (forall o, In o (expand schedules now) -> ~ start o <= now < end_ o) ->
     is_currently_running (resolve schedules now) = false
     /\ (forall t,
          next_start (resolve schedules now) = Some t
          <-> (exists o, In o (expand schedules now)
                         /\ now < start o /\ start o = t)
              /\ (forall o, In o (expand schedules now) ->
                            now < start o -> t <= start o))
     /\ (next_start (resolve schedules now) = None
         <-> forall o, In o (expand schedules now) -> ~ now < start o))
  /\ (forall (schedules : list Schedule) (now : Z),
        Forall (fun s => days_of_week s = 0) schedules ->
        is_currently_running (resolve schedules now) = false
        /\ next_start (resolve schedules now) = None)
  /\ (forall (i : nat) (p : string) (d : Z),
        weekdayIndex d = 1 ->
        resolve [mkSchedule i p 1 22 0 600 true]
          (Date.MakeDate d (Date.MakeTime 9 0 0 0))
        = mkResolved false None
            (Some (Date.MakeDate (d + 6) (Date.MakeTime 22 0 0 0)))).
Proof.
  split; [|split; [|exact monday_night_next]].
  - intros schedules now Hnone.
    assert (He : filter (covers now) (expand schedules now) = []).
    { destruct (filter (covers now) (expand schedules now)) as [|o l] eqn:E;
        [reflexivity|].
      assert (Ho : In o (filter (covers now) (expand schedules now)))
        by (rewrite E; now left).
      apply running_iff in Ho. destruct Ho as [Hin Hcov].
      now destruct (Hnone o Hin). }
    rewrite (resolve_idle schedules now He).
    cbn [is_currently_running next_start].
    split; [reflexivity|]. split.
    + intros t. rewrite minimum_Some. split.
      * intros [Ht Hlb]. apply in_map_iff in Ht.
        destruct Ht as (o & Hst & Ho). apply upcoming_iff in Ho.
        destruct Ho as [Hin Hafter]. split.
        -- exists o. now repeat split.
        -- intros o2 Hin2 Hafter2.
           apply Hlb, in_map, upcoming_iff. now split.
      * intros [(o & Hin & Hafter & Hst) Hlb]. split.
        -- apply in_map_iff. exists o. split; [assumption|].
           apply upcoming_iff. now split.
        -- intros y Hy. apply in_map_iff in Hy.
           destruct Hy as (o2 & <- & Ho2). apply upcoming_iff in Ho2.
           destruct Ho2 as [Hin2 Hafter2]. now apply Hlb.
    + rewrite minimum_None. split.
      * intros Hnil o Hin Hafter. apply map_eq_nil in Hnil.
        assert (Ho : In o (filter (startsAfter now) (expand schedules now)))
          by (apply upcoming_iff; now split).
        rewrite Hnil in Ho. contradiction.
      * intros Hno.
        destruct (filter (startsAfter now) (expand schedules now))
          as [|o l] eqn:E; [reflexivity|].
        assert (Ho : In o (filter (startsAfter now) (expand schedules now)))
          by (rewrite E; now left).
        apply upcoming_iff in Ho. destruct Ho as [Hin Hafter].
        now destruct (Hno o Hin).
  - intros schedules now Hzero.
    unfold resolve. rewrite (expand_empty_mask schedules now Hzero).
    split; reflexivity.
Qed.

Lemma resolve_currently_running_witness :
  let demo := mkSchedule 1 "demo" 1 22 0 600 true in
  let now := Date.MakeDate 19724 (Date.MakeTime 3 0 0 0) in
  (is_currently_running (resolve [demo] now) = true
   /\ next_start (resolve [demo] now) = None
   /\ exists e,
        current_end (resolve [demo] now) = Some e
        /\ (exists o, In o (expand [demo] now)
                      /\ start o <= now < end_ o /\ end_ o = e)
        /\ (forall o, In o (expand [demo] now) ->
                      start o <= now < end_ o -> end_ o <= e))
  /\ resolve [demo] now
     = mkResolved true (Some (Date.MakeDate 19724 (Date.MakeTime 8 0 0 0))) None.
Proof.
  split.
  - apply (proj1 resolve_currently_running).
    exists (mkOccurrence 1704146400000 1704182400000 1).
    split.
    + vm_compute. left. reflexivity.
    + split; [apply Z.leb_le | apply Z.ltb_lt]; reflexivity.
  - apply (proj2 (proj2 resolve_currently_running) 1%nat "demo" 19724).
    reflexivity.
Defined.

Lemma resolve_next_start_witness :
  let demo := mkSchedule 1 "demo" 1 22 0 600 true in
  let now := Date.MakeDate 19724 (Date.MakeTime 9 0 0 0) in
  (is_currently_running (resolve [demo] now) = false
   /\ (forall t,
        next_start (resolve [demo] now) = Some t
        <-> (exists o, In o (expand [demo] now)
                       /\ now < start o /\ start o = t)
            /\ (forall o, In o (expand [demo] now) ->
                          now < start o -> t <= start o))
   /\ (next_start (resolve [demo] now) = None
       <-> forall o, In o (expand [demo] now) -> ~ now < start o))
  /\ resolve [demo] now
     = mkResolved false None
         (Some (Date.MakeDate (19724 + 6) (Date.MakeTime 22 0 0 0))).
Proof.
  split.
  - apply (proj1 resolve_next_start).
    intros o Hin.
    change (expand [mkSchedule 1 "demo" 1 22 0 600 true]
              (Date.MakeDate 19724 (Date.MakeTime 9 0 0 0)))
      with [mkOccurrence 1704146400000 1704182400000 1;
            mkOccurrence 1704751200000 1704787200000 1] in Hin.
    destruct Hin as [<-|[<-|[]]]; vm_compute; intros [H1 H2];
      first [now apply H1 | discriminate H2].
  - apply (proj2 (proj2 resolve_next_start) 1%nat "demo" 19724).
    reflexivity.
Defined.

End EngineFacts.

(** * Further properties of the time utilities *)

(** ** Conversion on arbitrary input *)

Lemma isHHMM_of_pad2 (h m : Z) :
  0 <= h < 24 -> 0 <= m < 60 -> isHHMM (pad2 h ++ ":" ++ pad2 m) = true.
Proof.
  intros Hh Hm.
  assert (Eh : h = 10 * (h / 10) + h mod 10) by (apply Z.div_mod; lia).
  assert (Em : m = 10 * (m / 10) + m mod 10) by (apply Z.div_mod; lia).
  assert (0 <= h / 10 < 10 /\ 0 <= h mod 10 < 10) as [Hx Hy]
    by (split; [split; [apply Z.div_pos | apply Z.div_lt_upper_bound]; lia
               | apply Z.mod_pos_bound; lia]).
  assert (0 <= m / 10 < 10 /\ 0 <= m mod 10 < 10) as [Hz Hw]
    by (split; [split; [apply Z.div_pos | apply Z.div_lt_upper_bound]; lia
               | apply Z.mod_pos_bound; lia]).
  rewrite Eh at 1. rewrite Em at 1.
  rewrite !pad2_two_digits by assumption.
  cbn [String.append isHHMM Ascii.eqb Bool.eqb andb].
  destruct (digitChar_digitOf _ Hx) as [-> _].
  destruct (digitChar_digitOf _ Hy) as [-> _].
  destruct (digitChar_digitOf _ Hz) as [-> _].
  destruct (digitChar_digitOf _ Hw) as [-> _].
  rewrite <- Eh, <- Em.
  apply andb_true_iff. split; apply Z.ltb_lt; lia.
Qed.

Lemma minute_of_day_fields (Y M : Z) :
  M = Y mod 1440 -> (Y / 60) mod 24 = M / 60 /\ Y mod 60 = M mod 60.
Proof. intros ->. Z.div_mod_to_equations. lia. Qed.

Lemma utcToLocal_minute
    (tz : Date.TimeZone) (now : Z) (t : string) (h m : Z) :
  parseHHMM t = Some (h, m) ->
  let M := (60 * h + m + Date.offsetMinutes tz) mod 1440 in
  utcToLocal tz now t = Some (pad2 (M / 60) ++ ":" ++ pad2 (M mod 60)).
Proof.
  intros Hp M.
  unfold utcToLocal. rewrite Hp. cbv zeta.
  unfold Date.getHours, Date.getMinutes.
  rewrite setUTCHours_local_minutes.
  set (Y := Date.Day now * 1440 + 60 * h + m + Date.offsetMinutes tz).
  destruct (fields_of_minutes Y) as [-> ->].
  destruct (minute_of_day_fields Y M) as [-> ->]; [|reflexivity].
  subst M Y.
  replace (Date.Day now * 1440 + 60 * h + m + Date.offsetMinutes tz)
    with (60 * h + m + Date.offsetMinutes tz + Date.Day now * 1440) by lia.
  now rewrite Z.mod_add by lia.
Qed.

Lemma localToUTC_minute
    (tz : Date.TimeZone) (now : Z) (t : string) (h m : Z) :
  parseHHMM t = Some (h, m) ->
  let M := (60 * h + m - Date.offsetMinutes tz) mod 1440 in
  localToUTC tz now t = Some (pad2 (M / 60) ++ ":" ++ pad2 (M mod 60)).
Proof.
  intros Hp M.
  unfold localToUTC. rewrite Hp. cbv zeta.
  unfold Date.getUTCHours, Date.getUTCMinutes.
  rewrite setHours_minutes.
  set (Y := Date.Day (Date.LocalTime tz now) * 1440 + 60 * h + m
            - Date.offsetMinutes tz).
  destruct (fields_of_minutes Y) as [-> ->].
  destruct (minute_of_day_fields Y M) as [-> ->]; [|reflexivity].
  subst M Y.
  replace (Date.Day (Date.LocalTime tz now) * 1440 + 60 * h + m
           - Date.offsetMinutes tz)
    with (60 * h + m - Date.offsetMinutes tz
          + Date.Day (Date.LocalTime tz now) * 1440) by lia.
  now rewrite Z.mod_add by lia.
Qed.

Lemma minute_fields_range (M : Z) :
  0 <= M < 1440 -> 0 <= M / 60 < 24 /\ 0 <= M mod 60 < 60.
Proof. intros HM. Z.div_mod_to_equations. lia. Qed.

Lemma isHHMM_of_minute (x : Z) :
  let M := x mod 1440 in
  isHHMM (pad2 (M / 60) ++ ":" ++ pad2 (M mod 60)) = true.
Proof.
  intros M.
  assert (HM : 0 <= M < 1440) by (apply Z.mod_pos_bound; lia).
  destruct (minute_fields_range M HM). now apply isHHMM_of_pad2.
Qed.

(** A well-formed string parses to its hour and minute. *)
Lemma isHHMM_parse (t : string) :
  isHHMM t = true ->
  exists h m, 0 <= h < 24 /\ 0 <= m < 60
              /\ t = pad2 h ++ ":" ++ pad2 m /\ parseHHMM t = Some (h, m).
Proof.
  intros Ht. destruct (isHHMM_pad2 t Ht) as (h & m & Hh & Hm & ->).
  exists h, m. repeat split; try lia. now apply parseHHMM_pad2.
Qed.

(** X1: whenever the first two pieces of the input are digit strings, an
    hour below 24 and a minute below 60 or not, and the date they set is
    one a [Date] can hold, [utcToLocal] returns the well-formed time of day
    at minute [(60 h + m + offset) mod 1440]: fields out of range wrap
    around the day and the current date plays no part. *)
Theorem utcToLocal_wraps
    (tz : Date.TimeZone) (now : Z) (t : string) (h m : Z) :
  parseHHMM t = Some (h, m) ->
  timeValueInRange (Date.setUTCHours now h m 0 0) ->
  let M := (60 * h + m + Date.offsetMinutes tz) mod 1440 in
  utcToLocal tz now t = Some (pad2 (M / 60) ++ ":" ++ pad2 (M mod 60))
  /\ isHHMM (pad2 (M / 60) ++ ":" ++ pad2 (M mod 60)) = true.
Proof.
  intros Hp _ M. split.
  - now apply utcToLocal_minute.
  - apply isHHMM_of_minute.
Qed.

Lemma utcToLocal_wraps_witness :
  utcToLocal (Date.mkZone 90) 1700000000000 "24:45" = Some "02:15"
  /\ isHHMM "02:15" = true.
Proof.
  apply (utcToLocal_wraps (Date.mkZone 90) 1700000000000 "24:45" 24 45).
  - reflexivity.
  - unfold timeValueInRange. vm_compute. split; discriminate.
Defined.

(** X2: the same for [localToUTC], with the offset subtracted. *)
Theorem localToUTC_wraps
    (tz : Date.TimeZone) (now : Z) (t : string) (h m : Z) :
  parseHHMM t = Some (h, m) ->
  timeValueInRange (Date.setHours tz now h m 0 0) ->
  let M := (60 * h + m - Date.offsetMinutes tz) mod 1440 in
  localToUTC tz now t = Some (pad2 (M / 60) ++ ":" ++ pad2 (M mod 60))
  /\ isHHMM (pad2 (M / 60) ++ ":" ++ pad2 (M mod 60)) = true.
Proof.
  intros Hp _ M. split.
  - now apply localToUTC_minute.
  - apply isHHMM_of_minute.
Qed.

Lemma localToUTC_wraps_witness :
  localToUTC (Date.mkZone 540) 1700000000000 "7:5" = Some "22:05"
  /\ isHHMM "22:05" = true.
Proof.
  apply (localToUTC_wraps (Date.mkZone 540) 1700000000000 "7:5" 7 5).
  - reflexivity.
  - unfold timeValueInRange. vm_compute. split; discriminate.
Defined.

(** X3: the round trip in the other direction: a well-formed UTC "HH:MM"
    shown in local time and stored again is unchanged, whenever the two
    conversions are made. *)
Theorem localToUTC_utcToLocal
    (tz : Date.TimeZone) (now1 now2 : Z) (t : string) :
  isHHMM t = true ->
  exists l, utcToLocal tz now1 t = Some l /\ localToUTC tz now2 l = Some t.
Proof.
  intros Ht.
  destruct (isHHMM_parse t Ht) as (h & m & Hh & Hm & -> & Hp).
  eexists. split; [exact (utcToLocal_minute tz now1 _ h m Hp)|]. cbv zeta.
  set (M := (60 * h + m + Date.offsetMinutes tz) mod 1440).
  assert (HM : 0 <= M < 1440) by (apply Z.mod_pos_bound; lia).
  destruct (minute_fields_range M HM) as [H1 H2].
  rewrite (localToUTC_minute tz now2 _ _ _ (parseHHMM_pad2 _ _ H1 H2)).
  cbv zeta.
  assert (E : (60 * (M / 60) + M mod 60 - Date.offsetMinutes tz) mod 1440
              = 60 * h + m).
  { subst M. Z.div_mod_to_equations. lia. }
  rewrite E.
  assert ((60 * h + m) / 60 = h /\ (60 * h + m) mod 60 = m) as [-> ->]
    by (Z.div_mod_to_equations; lia).
  reflexivity.
Qed.

Lemma localToUTC_utcToLocal_witness :
  exists l,
    utcToLocal (Date.mkZone (-330)) 1700000000000 "23:50" = Some l
    /\ localToUTC (Date.mkZone (-330)) 1700086400000 l = Some "23:50".
Proof.
  apply (localToUTC_utcToLocal (Date.mkZone (-330)) 1700000000000
           1700086400000 "23:50").
  reflexivity.
Defined.

(** X4: for a well-formed time neither conversion depends on the moment it
    is made at (the zone's offset being fixed); storing a local time is
    showing it in the zone with the opposite offset; and a viewer in UTC
    sees and stores the time unchanged. *)
Theorem conversion_clock_and_zone
    (off now1 now2 : Z) (t : string) :
  isHHMM t = true ->
  utcToLocal (Date.mkZone off) now1 t = utcToLocal (Date.mkZone off) now2 t
  /\ localToUTC (Date.mkZone off) now1 t = localToUTC (Date.mkZone off) now2 t
  /\ localToUTC (Date.mkZone off) now1 t = utcToLocal (Date.mkZone (- off)) now2 t
  /\ utcToLocal (Date.mkZone 0) now1 t = Some t
  /\ localToUTC (Date.mkZone 0) now1 t = Some t.
Proof.
  intros Ht.
  destruct (isHHMM_parse t Ht) as (h & m & Hh & Hm & Et & Hp).
  rewrite !(utcToLocal_minute _ _ t h m Hp), !(localToUTC_minute _ _ t h m Hp).
  cbn [Date.offsetMinutes].
  repeat split.
  - rewrite Z.add_0_r, Z.mod_small by lia.
    assert ((60 * h + m) / 60 = h /\ (60 * h + m) mod 60 = m) as [-> ->]
      by (Z.div_mod_to_equations; lia).
    now rewrite Et.
  - rewrite Z.sub_0_r, Z.mod_small by lia.
    assert ((60 * h + m) / 60 = h /\ (60 * h + m) mod 60 = m) as [-> ->]
      by (Z.div_mod_to_equations; lia).
    now rewrite Et.
Qed.

Lemma conversion_clock_and_zone_witness :
  utcToLocal (Date.mkZone 60) 0 "23:30" = utcToLocal (Date.mkZone 60) 1700000000000 "23:30"
  /\ localToUTC (Date.mkZone 60) 0 "23:30" = localToUTC (Date.mkZone 60) 1700000000000 "23:30"
  /\ localToUTC (Date.mkZone 60) 0 "23:30" = utcToLocal (Date.mkZone (- 60)) 1700000000000 "23:30"
  /\ utcToLocal (Date.mkZone 0) 0 "23:30" = Some "23:30"
  /\ localToUTC (Date.mkZone 0) 0 "23:30" = Some "23:30".
Proof.
  apply (conversion_clock_and_zone 60 0 1700000000000 "23:30").
  reflexivity.
Defined.

Lemma parseHHMM_trailing (t rest : string) :
  isHHMM t = true -> parseHHMM (t ++ ":" ++ rest) = parseHHMM t.
Proof.
  destruct t as [|a [|b [|c [|d [|e [|]]]]]]; try discriminate.
  cbn [isHHMM]. intros H.
  apply andb_true_iff in H. destruct H as [Hc H].
  apply Ascii.eqb_eq in Hc. subst c.
  destruct (digitOf a) as [x|] eqn:Da; [|discriminate].
  destruct (digitOf b) as [y|] eqn:Db; [|discriminate].
  destruct (digitOf d) as [z|] eqn:Dd; [|discriminate].
  destruct (digitOf e) as [w|] eqn:De; [|discriminate].
  clear H.
  apply digitOf_digitChar in Da, Db, Dd, De.
  destruct Da as [Hx ->], Db as [Hy ->], Dd as [Hz ->], De as [Hw ->].
  rewrite parseHHMM_digits by assumption.
  destruct (digitChar_digitOf x Hx) as [Dx Cx].
  destruct (digitChar_digitOf y Hy) as [Dy Cy].
  destruct (digitChar_digitOf z Hz) as [Dz Cz].
  destruct (digitChar_digitOf w Hw) as [Dw Cw].
  unfold parseHHMM, split.
  cbn [String.append splitFrom]. rewrite Cx, Cy, Cz, Cw.
  cbn [Ascii.eqb Bool.eqb String.append map Number digitsFrom].
  rewrite Dx, Dy, Dz, Dw.
  reflexivity.
Qed.

(** X5: whatever follows a second colon is ignored: a well-formed time
    followed by a colon and anything else (seconds, say) converts like the
    time alone, in both directions. *)
Theorem conversion_ignores_trailing
    (tz : Date.TimeZone) (now : Z) (t rest : string) :
  isHHMM t = true ->
  utcToLocal tz now (t ++ ":" ++ rest) = utcToLocal tz now t
  /\ localToUTC tz now (t ++ ":" ++ rest) = localToUTC tz now t.
Proof.
  intros Ht. unfold utcToLocal, localToUTC.
  now rewrite (parseHHMM_trailing t rest Ht).
Qed.

Lemma conversion_ignores_trailing_witness :
  utcToLocal (Date.mkZone 120) 0 ("08:15" ++ ":" ++ "59.5")
  = utcToLocal (Date.mkZone 120) 0 "08:15"
  /\ localToUTC (Date.mkZone 120) 0 ("08:15" ++ ":" ++ "59.5")
     = localToUTC (Date.mkZone 120) 0 "08:15".
Proof.
  apply (conversion_ignores_trailing (Date.mkZone 120) 0 "08:15" "59.5").
  reflexivity.
Defined.

(** ** More on the day mask *)

Lemma lxor_range31 (a b : Z) :
  0 <= a < 2 ^ 31 -> 0 <= b < 2 ^ 31 -> 0 <= Z.lxor a b < 2 ^ 31.
Proof.
  intros Ha Hb.
  assert (Hnn : 0 <= Z.lxor a b) by (apply Z.lxor_nonneg; lia).
  split; [assumption|].
  destruct (Z.eq_dec (Z.lxor a b) 0) as [->|Hz]; [reflexivity|].
  apply Z.log2_lt_pow2; [lia|].
  eapply Z.le_lt_trans; [apply Z.log2_lxor; lia|].
  apply Z.max_lub_lt.
  - destruct (Z.eq_dec a 0) as [->|]; [reflexivity|].
    apply Z.log2_lt_pow2; lia.
  - destruct (Z.eq_dec b 0) as [->|]; [reflexivity|].
    apply Z.log2_lt_pow2; lia.
Qed.

(** X6: toggling the same day twice gives the mask back, for every
    non-negative 32-bit mask and bit value. *)
Theorem toggleDay_involutive (m b : Z) :
  0 <= m < 2 ^ 31 -> 0 <= b < 2 ^ 31 -> toggleDay (toggleDay m b) b = m.
Proof.
  intros Hm Hb. unfold toggleDay, JS.bxor.
  pose proof (lxor_range31 m b Hm Hb) as Hx.
  rewrite (ToInt32_small m), (ToInt32_small b) by lia.
  rewrite (ToInt32_small (Z.lxor m b)) by lia.
  now rewrite Z.lxor_assoc, Z.lxor_nilpotent, Z.lxor_0_r.
Qed.

Lemma toggleDay_involutive_witness : toggleDay (toggleDay 21 64) 64 = 21.
Proof. apply (toggleDay_involutive 21 64); lia. Defined.

(** X7: toggling one day leaves every other day of the mask as it was. *)
Theorem toggleDay_other_days (m b b' : Z) :
  0 <= m <= 127 -> In b (map bit DAYS) -> In b' (map bit DAYS) -> b <> b' ->
  isDayActive (toggleDay m b) b' = isDayActive m b'.
Proof.
  intros Hm Hb Hb' Hne.
  destruct (day_bit_pow2 b Hb) as (i & Hi & ->).
  destruct (day_bit_pow2 b' Hb') as (j & Hj & ->).
  assert (Hij : i <> j) by congruence.
  pose proof (lxor_mask_range m i Hm Hi) as Hx.
  rewrite toggleDay_lxor by assumption.
  rewrite !isDayActive_testbit by assumption.
  rewrite Z.lxor_spec, Z.pow2_bits_false by assumption.
  now rewrite xorb_false_r.
Qed.

Lemma toggleDay_other_days_witness :
  isDayActive (toggleDay 5 4) 1 = isDayActive 5 1.
Proof.
  apply (toggleDay_other_days 5 4 1).
  - lia.
  - simpl. tauto.
  - simpl. tauto.
  - lia.
Defined.

Lemma distinctb_NoDup (l : list string) : distinctb l = true -> NoDup l.
Proof.
  induction l as [|x rest IH]; cbn [distinctb]; intros H; constructor.
  - apply andb_true_iff in H. destruct H as [Hx _].
    intros Hin. apply negb_true_iff in Hx.
    assert (existsb (String.eqb x) rest = true); [|congruence].
    apply existsb_exists. exists x. split; [assumption|apply String.eqb_refl].
  - apply IH. apply andb_true_iff in H. tauto.
Qed.

Lemma NoDup_map_injective {A B : Type} (f : A -> B) (l : list A) (x y : A) :
  NoDup (map f l) -> In x l -> In y l -> f x = f y -> x = y.
Proof.
  induction l as [|a rest IH]; cbn [map]; intros Hnd Hx Hy Hf; [contradiction|].
  inversion Hnd as [|? ? Hnotin Hnd']; subst.
  destruct Hx as [->|Hx], Hy as [->|Hy].
  - reflexivity.
  - exfalso. apply Hnotin. rewrite Hf. now apply in_map.
  - exfalso. apply Hnotin. rewrite <- Hf. now apply in_map.
  - now apply IH.
Qed.

Lemma In_allMasks (m : Z) : 0 <= m <= 127 -> In m allMasks.
Proof.
  intros Hm. unfold allMasks. apply in_map_iff.
  exists (Z.to_nat m). split; [lia|]. apply in_seq. lia.
Qed.

(** X8: on the masks of the data model the description tells the mask:
    two masks in [0,127] with the same description are the same mask. *)
Theorem formatDaysDescription_injective (m1 m2 : Z) :
  0 <= m1 <= 127 -> 0 <= m2 <= 127 ->
  formatDaysDescription m1 = formatDaysDescription m2 -> m1 = m2.
Proof.
  intros H1 H2 Heq.
  apply (NoDup_map_injective formatDaysDescription allMasks);
    auto using In_allMasks.
  apply distinctb_NoDup. vm_compute. reflexivity.
Qed.

Lemma formatDaysDescription_injective_witness : 31 = 16 + 15.
Proof.
  apply (formatDaysDescription_injective 31 (16 + 15)).
  - lia.
  - lia.
  - reflexivity.
Defined.

Lemma isDayActive_testbit31 (m i : Z) :
  0 <= m < 2 ^ 31 -> 0 <= i < 7 -> isDayActive m (2 ^ i) = Z.testbit m i.
Proof.
  intros Hm Hi. unfold isDayActive, JS.band.
  pose proof (pow2_small i Hi).
  rewrite !ToInt32_small by lia.
  rewrite land_pow2 by lia.
  destruct (Z.testbit m i); cbn [negb].
  - destruct (Z.eqb_spec (2 ^ i) 0); [lia | reflexivity].
  - reflexivity.
Qed.

Lemma setDayLabels_low_bits (m : Z) :
  setDayLabels (m mod 128) = setDayLabels m.
Proof.
  unfold setDayLabels. cbn [seq flat_map Z.of_nat Pos.of_succ_nat Pos.succ].
  change 128 with (2 ^ 7).
  now rewrite !Z.mod_pow2_bits_low by lia.
Qed.

Lemma filter_DAYS_setDayLabels31 (m : Z) :
  0 <= m < 2 ^ 31 ->
  map label (filter (fun d => isDayActive m (bit d)) DAYS) = setDayLabels m.
Proof.
  intros Hm.
  pose proof (isDayActive_testbit31 m 0 Hm ltac:(lia)) as H0.
  pose proof (isDayActive_testbit31 m 1 Hm ltac:(lia)) as H1.
  pose proof (isDayActive_testbit31 m 2 Hm ltac:(lia)) as H2.
  pose proof (isDayActive_testbit31 m 3 Hm ltac:(lia)) as H3.
  pose proof (isDayActive_testbit31 m 4 Hm ltac:(lia)) as H4.
  pose proof (isDayActive_testbit31 m 5 Hm ltac:(lia)) as H5.
  pose proof (isDayActive_testbit31 m 6 Hm ltac:(lia)) as H6.
  change (2 ^ 0) with 1 in H0. change (2 ^ 1) with 2 in H1.
  change (2 ^ 2) with 4 in H2. change (2 ^ 3) with 8 in H3.
  change (2 ^ 4) with 16 in H4. change (2 ^ 5) with 32 in H5.
  change (2 ^ 6) with 64 in H6.
  unfold DAYS, setDayLabels. cbn [filter bit seq flat_map].
  rewrite H0, H1, H2, H3, H4, H5, H6.
  cbn [Z.of_nat Pos.of_succ_nat Pos.succ nth dayNames].
  destruct (Z.testbit m 0), (Z.testbit m 1), (Z.testbit m 2), (Z.testbit m 3),
    (Z.testbit m 4), (Z.testbit m 5), (Z.testbit m 6); reflexivity.
Qed.

(** X9: a mask above 127 is described by its low seven bits alone, and
    always as a list of names: the three special wordings are kept for the
    exact values 127, 31 and 96 (255 gives the seven names, not
    "Every day"). *)
Theorem formatDaysDescription_high_bits (mask : Z) :
  128 <= mask < 2 ^ 31 ->
  formatDaysDescription mask = JS.join ", " (setDayLabels (mask mod 128)).
Proof.
  intros Hm. unfold formatDaysDescription.
  destruct (Z.eqb_spec mask 127); [lia|].
  destruct (Z.eqb_spec mask 31); [lia|].
  destruct (Z.eqb_spec mask 96); [lia|].
  cbv zeta. rewrite filter_DAYS_setDayLabels31 by lia.
  now rewrite setDayLabels_low_bits.
Qed.

Lemma formatDaysDescription_high_bits_witness :
  formatDaysDescription 255 = JS.join ", " (setDayLabels (255 mod 128))
  /\ formatDaysDescription 255 = "Mon, Tue, Wed, Thu, Fri, Sat, Sun".
Proof.
  split.
  - apply (formatDaysDescription_high_bits 255). lia.
  - reflexivity.
Defined.

(** X20: on the masks of the data model the three special wordings mean
    what they say: "Every day" is given exactly when all seven days are
    active, "Weekdays" exactly when the active days are Monday to Friday,
    "Weekends" exactly when they are Saturday and Sunday. *)
Theorem formatDaysDescription_wordings (mask : Z) :
  0 <= mask <= 127 ->
  (formatDaysDescription mask = "Every day"
   <-> activeDaysAre mask (fun _ => true) = true)
  /\ (formatDaysDescription mask = "Weekdays"
      <-> activeDaysAre mask (fun b => b <=? DAY_BITS.Fri) = true)
  /\ (formatDaysDescription mask = "Weekends"
      <-> activeDaysAre mask (fun b => DAY_BITS.Sat <=? b) = true).
Proof.
  intros Hm.
  assert (Hall :
    forallb
      (fun m =>
         Bool.eqb (String.eqb (formatDaysDescription m) "Every day")
           (activeDaysAre m (fun _ => true))
         && Bool.eqb (String.eqb (formatDaysDescription m) "Weekdays")
              (activeDaysAre m (fun b => b <=? DAY_BITS.Fri))
         && Bool.eqb (String.eqb (formatDaysDescription m) "Weekends")
              (activeDaysAre m (fun b => DAY_BITS.Sat <=? b)))
      allMasks = true) by (vm_compute; reflexivity).
  rewrite forallb_forall in Hall.
  specialize (Hall mask (In_allMasks mask Hm)).
  apply andb_true_iff in Hall. destruct Hall as [Hall H3].
  apply andb_true_iff in Hall. destruct Hall as [H1 H2].
  apply Bool.eqb_prop in H1, H2, H3.
  rewrite <- H1, <- H2, <- H3.
  repeat split; intros H; first [now apply String.eqb_eq in H | now apply String.eqb_eq].
Qed.

Lemma formatDaysDescription_wordings_witness :
  (formatDaysDescription 31 = "Every day"
   <-> activeDaysAre 31 (fun _ => true) = true)
  /\ (formatDaysDescription 31 = "Weekdays"
      <-> activeDaysAre 31 (fun b => b <=? DAY_BITS.Fri) = true)
  /\ (formatDaysDescription 31 = "Weekends"
      <-> activeDaysAre 31 (fun b => DAY_BITS.Sat <=? b) = true).
Proof.
  apply (formatDaysDescription_wordings 31). lia.
Defined.

(** ** Next run and end time *)

(** X10: a next run less than 24 hours ahead is rendered exactly as an end
    time is, and so is a date that does not parse. *)
Theorem formatNextRun_as_formatEndTime
    (toLocaleTimeString toLocaleString : Z -> string)
    (now : Z) (date : option Z) :
  match date with
  | Some t => t - now < 24 * Date.msPerHour
  | None => True
  end ->
  formatNextRun toLocaleTimeString toLocaleString now date
  = formatEndTime toLocaleTimeString date.
Proof.
  destruct date as [t|]; [|reflexivity].
  intros Hlt. unfold formatNextRun, formatEndTime. cbv zeta.
  apply diffHours_lt_24 in Hlt.
  destruct (Z.ltb_spec (JS.floorDiv (t - now) (1000 * 60 * 60)) 24);
    [reflexivity | lia].
Qed.

Lemma formatNextRun_as_formatEndTime_witness :
  formatNextRun utcTime24 utcWeekdayTime24 1000 (Some 86400999)
  = formatEndTime utcTime24 (Some 86400999)
  /\ formatNextRun utcTime24 utcWeekdayTime24 1000 None
     = formatEndTime utcTime24 None.
Proof.
  split.
  - apply (formatNextRun_as_formatEndTime utcTime24 utcWeekdayTime24 1000
             (Some 86400999)).
    unfold Date.msPerHour. lia.
  - apply (formatNextRun_as_formatEndTime utcTime24 utcWeekdayTime24 1000 None).
    exact I.
Defined.

(** * The components *)

(** ** The dev server control *)

Module DevServerControlFacts.
Import DevServerControl.




(** X12: when a start and a stop error are both present the start error
    is the one displayed, unless it is the missing-dev-command error, which
    is never displayed: then the stop error is. *)
Theorem errorLine_precedence (startErr stopErr : JsError) :
  errorLine (Some startErr) (Some stopErr)
  = Some (errorText (Some (if mentionsNoDevCommand startErr then stopErr
                           else startErr)))
  /\ errorLine (Some startErr) None
     = (if mentionsNoDevCommand startErr then None
        else Some (errorText (Some startErr))).
Proof.
  unfold errorLine, showInlineError.
  destruct (mentionsNoDevCommand startErr); split; reflexivity.
Qed.

Lemma prefix_split (p s : string) :
  String.prefix p s = true <-> exists post, s = p ++ post.
Proof.
  revert p. induction s as [|c s IH]; intros [|a p]; cbn [String.prefix].
  - split; [exists ""; reflexivity | reflexivity].
  - split; [discriminate | intros [post H]; discriminate H].
  - split; [exists (String c s); reflexivity | reflexivity].
  - destruct (ascii_dec a c) as [->|Hne].
    + rewrite IH. split; intros [post H]; exists post.
      * now rewrite H.
      * now injection H.
    + split; [discriminate|]. intros [post H]. injection H as Hc _.
      congruence.
Qed.

Lemma includes_unfold (needle s : string) :
  includes needle s
  = if String.prefix needle s then true
    else match s with
         | EmptyString => false
         | String _ rest => includes needle rest
         end.
Proof. destruct s; reflexivity. Qed.

(** [includes] finds the needle exactly in the strings that contain it. *)
Lemma includes_split (needle s : string) :
  includes needle s = true <-> exists pre post, s = pre ++ needle ++ post.
Proof.
  split.
  - induction s as [|c s IH]; rewrite includes_unfold;
      destruct (String.prefix needle _) eqn:Hp.
    + intros _. apply prefix_split in Hp. destruct Hp as [post ->].
      exists "", post. reflexivity.
    + discriminate.
    + intros _. apply prefix_split in Hp. destruct Hp as [post ->].
      exists "", post. reflexivity.
    + intros H. destruct (IH H) as (pre & post & ->).
      exists (String c pre), post. reflexivity.
  - intros (pre & post & ->).
    induction pre as [|c pre IH]; rewrite includes_unfold.
    + cbn [String.append].
      replace (String.prefix needle (needle ++ post)) with true; [reflexivity|].
      symmetry. apply prefix_split. now exists post.
    + cbn [String.append].
      destruct (String.prefix needle _); [reflexivity | exact IH].
Qed.

Lemma mentionsNoDevCommand_split (err : JsError) :
  mentionsNoDevCommand err = true
  <-> exists pre post,
        message err = Some (pre ++ "No dev command available" ++ post).
Proof.
  unfold mentionsNoDevCommand. destruct (message err) as [msg|].
  - rewrite includes_split. split; intros (pre & post & H); exists pre, post.
    + now rewrite H.
    + now injection H.
  - split; [discriminate | intros (pre & post & H); discriminate H].
Qed.

(** X13: with the dialog closed and no stop error, a failed start is
    reported in exactly one way, decided by its message: when the message
    contains "No dev command available" the configuration dialog opens in
    save-and-start mode and no error line is shown; when it does not (or
    there is no message) the dialog stays closed, auto-start is untouched
    and the error line is shown. *)
Theorem start_failure_reported_once (err : JsError) (flags : DialogFlags) :
  showConfigDialog flags = false ->
  let flags' := onStartError err flags in
  ((exists pre post,
      message err = Some (pre ++ "No dev command available" ++ post)) ->
   showConfigDialog flags' = true /\ autoStartOnSave flags' = true
   /\ errorLine (Some err) None = None)
  /\ ((forall pre post,
         message err <> Some (pre ++ "No dev command available" ++ post)) ->
      showConfigDialog flags' = false
      /\ autoStartOnSave flags' = autoStartOnSave flags
      /\ errorLine (Some err) None = Some (errorText (Some err))).
Proof.
  intros Hclosed flags'. subst flags'.
  unfold onStartError, errorLine, showInlineError.
  destruct (mentionsNoDevCommand err) eqn:Hm; split.
  - intros _. repeat split.
  - intros Hno. apply mentionsNoDevCommand_split in Hm.
    destruct Hm as (pre & post & H). now destruct (Hno pre post).
  - intros Hyes. apply mentionsNoDevCommand_split in Hyes. congruence.
  - intros _. repeat split. exact Hclosed.
Qed.

Lemma start_failure_reported_once_witness :
  let missing := mkError (Some "Error: No dev command available for project") in
  let other := mkError (Some "port 5173 is in use") in
  let flags := mkFlags false false in
  (showConfigDialog (onStartError missing flags) = true
   /\ autoStartOnSave (onStartError missing flags) = true
   /\ errorLine (Some missing) None = None)
  /\ (showConfigDialog (onStartError other flags) = false
      /\ autoStartOnSave (onStartError other flags) = autoStartOnSave flags
      /\ errorLine (Some other) None = Some "port 5173 is in use").
Proof.
  split.
  - apply (proj1 (start_failure_reported_once
                    (mkError (Some "Error: No dev command available for project"))
                    (mkFlags false false) eq_refl)).
    exists "Error: ", " for project". reflexivity.
  - apply (proj2 (start_failure_reported_once
                    (mkError (Some "port 5173 is in use"))
                    (mkFlags false false) eq_refl)).
    intros pre post H.
    assert (Hinc : mentionsNoDevCommand (mkError (Some "port 5173 is in use"))
                   = true)
      by (apply mentionsNoDevCommand_split; now exists pre, post).
    vm_compute in Hinc. discriminate Hinc.
Defined.

(** X14: the link to the server is shown only beside the Stop button, and
    only for a URL that is not empty. *)
Theorem urlLink_with_stop_button
    (status : string) (url : option string) (loading : bool) (u : string) :
  urlLink status url = Some u ->
  url = Some u /\ u <> ""
  /\ mainButton status loading
     = StopButton loading (if loading then Loader2 else Square).
Proof.
  unfold urlLink, mainButton, isRunning, isStopped.
  destruct (String.eqb_spec status "running") as [->|]; [|discriminate].
  destruct url as [[|c rest]|]; cbn; try discriminate.
  intros [= <-]. repeat split. discriminate.
Qed.

Lemma urlLink_with_stop_button_witness :
  Some "http://localhost:5173" = Some "http://localhost:5173"
  /\ "http://localhost:5173" <> ""
  /\ mainButton "running" false = StopButton false Square.
Proof.
  apply (urlLink_with_stop_button "running" (Some "http://localhost:5173")
           false "http://localhost:5173").
  reflexivity.
Defined.

End DevServerControlFacts.

(** ** The agent control *)

Module AgentControlFacts.
Import AgentControl.

(** X15: the header never shows "Running until" and "Next" together;
    it shows neither while the schedule answer is missing, nor for a
    running schedule whose end is missing, whatever its next start. *)
Theorem schedule_lines_exclusive
    (parseDate : string -> option Z)
    (toLocaleTimeString toLocaleString : Z -> string) (now : Z)
    (nextRun : option NextRun) :
  (runningLine parseDate toLocaleTimeString nextRun = None
   \/ nextLine parseDate toLocaleTimeString toLocaleString now nextRun = None)
  /\ (match nextRun with
      | None => True
      | Some r => is_currently_running r = true /\ truthy (next_end r) = false
      end ->
      runningLine parseDate toLocaleTimeString nextRun = None
      /\ nextLine parseDate toLocaleTimeString toLocaleString now nextRun = None).
Proof.
  destruct nextRun as [[running e s]|]; cbn.
  - destruct running; cbn; split.
    + now right.
    + intros [_ ->]. now split.
    + now left.
    + intros [? _]. discriminate.
  - split; [now left | now split].
Qed.

(** X16: the concurrency slider is shown exactly with the Start button,
    and the concurrency indicator only with the Stop button. *)
Theorem controls_consistent (status : string) (concurrency : Z) :
  (sliderShown status = true <-> mainButton status = StartButton)
  /\ (indicatorShown status concurrency = true ->
      mainButton status = StopButton /\ 1 < concurrency).
Proof.
  unfold sliderShown, indicatorShown, mainButton, isRunning, isStopped,
    isLoadingStatus, isParallel.
  repeat match goal with
  | |- context [String.eqb status ?s] =>
      destruct (String.eqb_spec status s) as [->|?]
  end;
  cbn; try discriminate;
  (split; [split; intros H; (reflexivity || discriminate H)
          | intros H;
            first [ discriminate H
                  | split; [reflexivity | now apply Z.gtb_lt] ]]).
Qed.

Lemma schedule_lines_exclusive_witness :
  let r := Some (mkNextRun true None (Some "2024-01-08T22:00:00Z")) in
  runningLine (fun _ => Some 0) utcTime24 r = None
  /\ nextLine (fun _ => Some 0) utcTime24 utcWeekdayTime24 0 r = None.
Proof.
  apply (proj2 (schedule_lines_exclusive (fun _ => Some 0) utcTime24
                  utcWeekdayTime24 0
                  (Some (mkNextRun true None (Some "2024-01-08T22:00:00Z"))))).
  split; reflexivity.
Defined.

Lemma controls_consistent_witness :
  mainButton "paused" = StopButton /\ 1 < 3.
Proof.
  apply (proj2 (controls_consistent "paused" 3)). reflexivity.
Defined.

End AgentControlFacts.

(** ** The dev server configuration dialog *)

Module DevServerConfigDialogFacts.
Import DevServerConfigDialog.

(** X17: saving a command that is blank after trimming makes no call at
    all and leaves the dialog open: only the error message is set. *)
Theorem handleSaveAndStart_blank
    (trim : string -> string) (updateRejection : option string -> option Thrown)
    (startRejection : option Thrown) (autoStartOnSave : bool)
    (st : State) (calls : list Effect) :
  trim (command st) = "" ->
  handleSaveAndStart trim updateRejection startRejection autoStartOnSave
    (st, calls)
  = (inr tt,
     (mkState (command st) (Some "Please enter a dev server command.")
        (isSaving st),
      calls)).
Proof.
  intros Hblank. unfold handleSaveAndStart. cbn [fst snd].
  rewrite Hblank. reflexivity.
Qed.

Lemma handleSaveAndStart_blank_witness :
  handleSaveAndStart asciiTrim (fun _ => None) None true
    (mkState "   " None false, [])
  = (inr tt,
     (mkState "   " (Some "Please enter a dev server command.") false, [])).
Proof.
  apply (handleSaveAndStart_blank asciiTrim (fun _ => None) None true
           (mkState "   " None false) []).
  reflexivity.
Defined.

(** X18: saving a command that is not blank, however the two calls end:
    the handler does not throw and leaves [isSaving] false and the input
    untouched; the first call saves the trimmed command; the dialog is
    closed exactly when no error is left; the server is started exactly
    when auto-start is on and the save succeeded; and the status is
    refreshed only on the way to closing. *)
Theorem handleSaveAndStart_outcome
    (trim : string -> string) (updateRejection : option string -> option Thrown)
    (startRejection : option Thrown) (autoStartOnSave : bool) (st : State) :
  trim (command st) <> "" ->
  let '(result, (st', calls)) :=
    handleSaveAndStart trim updateRejection startRejection autoStartOnSave
      (st, []) in
  result = inr tt
  /\ isSaving st' = false
  /\ command st' = command st
  /\ (exists rest, calls = UpdateConfig (Some (trim (command st))) :: rest)
  /\ (In OnClose calls <-> error st' = None)
  /\ (In StartDevServer calls
      <-> autoStartOnSave = true
          /\ updateRejection (Some (trim (command st))) = None)
  /\ (In InvalidateStatus calls -> In OnClose calls).
Proof.
  intros Hnb. unfold handleSaveAndStart. cbn [fst snd].
  destruct (String.eqb_spec (trim (command st)) "") as [|_]; [contradiction|].
  unfold tryCatchFinally, bind, perform, setIsSaving, setError, ret.
  cbn [fst snd app].
  destruct (updateRejection (Some (trim (command st)))) as [thrown|];
    [|destruct autoStartOnSave; [destruct startRejection as [thrown|]|]];
    cbn [fst snd app isSaving command error];
    repeat split; intros; cbn [In] in *;
    try (eexists; reflexivity);
    intuition (try discriminate; try congruence).
Qed.

Lemma handleSaveAndStart_outcome_witness :
  let '(result, (st', calls)) :=
    handleSaveAndStart asciiTrim (fun _ => None)
      (Some (ThrownError "port in use")) true
      (mkState " npm run dev " None false, []) in
  result = inr tt
  /\ isSaving st' = false
  /\ command st' = command (mkState " npm run dev " None false)
  /\ (exists rest,
        calls
        = UpdateConfig
            (Some (asciiTrim (command (mkState " npm run dev " None false))))
          :: rest)
  /\ (In OnClose calls <-> error st' = None)
  /\ (In StartDevServer calls
      <-> true = true
          /\ (fun _ : option string => @None Thrown)
               (Some (asciiTrim (command (mkState " npm run dev " None false))))
             = None)
  /\ (In InvalidateStatus calls -> In OnClose calls).
Proof.
  apply (handleSaveAndStart_outcome asciiTrim (fun _ => None)
           (Some (ThrownError "port in use")) true
           (mkState " npm run dev " None false)).
  vm_compute. discriminate.
Defined.

(** X19: clearing the custom command makes one call, the update with
    [null], and never closes the dialog or starts the server; it leaves
    [isSaving] false; on success the input takes the detected command (or
    becomes empty) and no error is left, on failure the input is kept and
    the error shows the message thrown, or "Failed to clear configuration"
    when what was thrown is not an [Error]. *)
Theorem handleClear_outcome
    (updateRejection : option string -> option Thrown)
    (config : option Config) (st : State) :
  let '(result, (st', calls)) :=
    handleClear updateRejection config (st, []) in
  result = inr tt
  /\ isSaving st' = false
  /\ calls = [UpdateConfig None]
  /\ match updateRejection None with
     | None =>
         command st'
         = nullish (match config with
                    | Some c => detected_command c
                    | None => None
                    end) ""
         /\ error st' = None
     | Some thrown =>
         command st' = command st
         /\ error st'
            = Some (messageOr "Failed to clear configuration" thrown)
     end.
Proof.
  unfold handleClear, tryCatchFinally, bind, perform, setIsSaving, setError,
    setCommand.
  cbn [fst snd app].
  destruct (updateRejection None) as [thrown|];
    cbn [fst snd isSaving command error]; repeat split.
Qed.

End DevServerConfigDialogFacts.
